(** * Store publishing core of shopware-cli: a shallow embedding

    The development follows [account_api]'s producer endpoint file
    (binaries, artifact and icon upload, gallery images, code review and
    the software-version filter).  Go values are embedded as follows:
    [int] as [Z], [string] as [string], [[]byte] as [list Byte.byte],
    a [(T, error)] return as [result T], a bare [error] return as
    [option error] ([None] is [nil]), a pointer as [option].  Code that
    touches the file system, the log or the transport runs in the monad
    [Go], which threads a [World] and can panic. *)

From Stdlib Require Import ZArith String Ascii List Bool Lia DecimalString.
From stdpp Require Import base option list gmap strings.

Local Open Scope string_scope.
Local Open Scope Z_scope.
Local Open Scope list_scope.

(** ** Go runtime values *)

Definition bytes := list Byte.byte.

(** Go's [error] interface, by dynamic type. *)
Inductive error : Type :=
| errorString (s : string)
    (* errors.New and fmt.Errorf without a wrapping verb *)
| PathError (Op Path : string) (Err : error)
    (* *fs.PathError, returned by package os *)
| foreignError (origin : string) (s : string).
    (* an error value built by a collaborator package *)

Fixpoint Error (e : error) : string :=
  match e with
  | errorString s => s
  | PathError op path err => op +:+ " " +:+ path +:+ ": " +:+ Error err
  | foreignError _ s => s
  end.

Inductive result (A : Type) : Type :=
| Ok (a : A)
| Err (e : error).
Arguments Ok {A} a.
Arguments Err {A} e.

(** A Go interpreted string literal: only the escape [\n] occurs in the
    source. *)
Definition LF : ascii := ascii_of_nat 10.

Fixpoint golit (s : string) : string :=
  match s with
  | String "\" (String "n" rest) => String LF (golit rest)
  | String c rest => String c (golit rest)
  | EmptyString => EmptyString
  end.

(** ** Package fmt *)

Inductive fmt_arg : Type :=
| AString (s : string)
| AInt (z : Z)
| AError (e : error).

Definition fmt_d (z : Z) : string := NilZero.string_of_int (Z.to_int z).

(** The operand printed under verb [c]; the source only uses [%s] on
    strings, [%d] on ints and [%v] on errors. *)
Definition fmt_operand (c : ascii) (a : fmt_arg) : string :=
  match a, c with
  | AString s, ("s" | "v")%char => s
  | AInt z, ("d" | "v")%char => fmt_d z
  | AError e, ("v" | "s")%char => Error e
  | _, _ => "%!" +:+ String c "(BADVERB)"
  end.

Fixpoint fmt_Sprintf (format : string) (args : list fmt_arg) : string :=
  match format with
  | String "%" (String "%" rest) => String "%" (fmt_Sprintf rest args)
  | String "%" (String c rest) =>
      match args with
      | a :: args' => fmt_operand c a +:+ fmt_Sprintf rest args'
      | [] => "%!" +:+ String c "(MISSING)" +:+ fmt_Sprintf rest []
      end
  | String c rest => String c (fmt_Sprintf rest args)
  | EmptyString => EmptyString
  end.

(** [fmt.Errorf] with no [%w] verb returns a fresh [*errors.errorString]
    holding the formatted text. *)
Definition fmt_Errorf (format : string) (args : list fmt_arg) : error :=
  errorString (fmt_Sprintf format args).

(** ** Collaborators outside the repository *)

(** github.com/shyim/go-version. *)
Class VersionLib : Type := {
  Version : Type;
  Constraints : Type;
  version_NewVersion : string -> result Version;
  Constraints_Check : Constraints -> Version -> bool
}.

(** github.com/microcosm-cc/bluemonday: a policy and its [Sanitize]. *)
Class Bluemonday : Type := {
  Policy : Type;
  bluemonday_NewPolicy : Policy;
  Policy_Sanitize : Policy -> string -> string
}.

(** ** Data model *)

(** Modelled from the spec: the declaration of [SoftwareVersion] is not
    part of the file; the spec gives it an id, a name and a [selectable]
    flag, and the code reads [Name] and [Selectable]. *)
Module SoftwareVersion.
Record t : Type := mk {
  Id : Z;
  Name : string;
  Selectable : bool
}.
End SoftwareVersion.

Definition SoftwareVersionList := list SoftwareVersion.t.

Module SubCheckResult.
Record t : Type := mk {
  SubCheck : string;
  Status : string;
  Passed : bool;
  Message : string;
  HasWarnings : bool
}.
End SubCheckResult.

Module ReviewType.
Record t : Type := mk {
  Id : Z;
  Name : string;
  Description : string
}.
End ReviewType.

Module BinaryReviewResult.
Record t : Type := mk {
  Id : Z;
  BinaryId : Z;
  Type_ : ReviewType.t;
  Message : string;
  CreationDate : string;
  SubCheckResults : list SubCheckResult.t
}.

Definition HasPassed (review : t) : bool :=
  (ReviewType.Id (Type_ review) =? 3)
  || String.eqb (ReviewType.Name (Type_ review)) "automaticcodereviewsucceeded".

(** [for _, result := range ...] with its early [return true]. *)
Fixpoint HasWarnings_range (results : list SubCheckResult.t) : bool :=
  match results with
  | [] => false
  | result :: rest =>
      if SubCheckResult.HasWarnings result then true
      else HasWarnings_range rest
  end.

Definition HasWarnings (review : t) : bool :=
  HasWarnings_range (SubCheckResults review).

Definition IsPending (review : t) : bool :=
  ReviewType.Id (Type_ review) =? 4.

Section Summary.
Context `{Bluemonday}.

(** The loop body of [GetSummary], threading [message]. *)
Fixpoint GetSummary_range (p : Policy) (results : list SubCheckResult.t)
    (message : string) : string :=
  match results with
  | [] => message
  | result :: rest =>
      if SubCheckResult.Passed result && negb (SubCheckResult.HasWarnings result)
      then GetSummary_range p rest message
      else
        let message :=
          message +:+ fmt_Sprintf (golit "=== %s ===\n")
                        [AString (SubCheckResult.SubCheck result)] in
        let message :=
          message +:+ fmt_Sprintf (golit "%s\n\n")
                        [AString (Policy_Sanitize p (SubCheckResult.Message result))] in
        GetSummary_range p rest message
  end.

Definition GetSummary (review : t) : string :=
  let message := "" in
  let p := bluemonday_NewPolicy in
  GetSummary_range p (SubCheckResults review) message.
End Summary.
End BinaryReviewResult.

(** ** Version filter

    The receiver is the list; [constriant] is a [*version.Constraints],
    embedded as the constraints it points to. *)

Section VersionFilter.
Context `{VersionLib}.

Fixpoint FilterOnVersion_range (constriant : Constraints)
    (list_ : SoftwareVersionList) (newList : SoftwareVersionList)
    : SoftwareVersionList :=
  match list_ with
  | [] => newList
  | swVersion :: rest =>
      if negb (SoftwareVersion.Selectable swVersion)
      then FilterOnVersion_range constriant rest newList
      else
        match version_NewVersion (SoftwareVersion.Name swVersion) with
        | Err _ => FilterOnVersion_range constriant rest newList
        | Ok v =>
            if Constraints_Check constriant v
            then FilterOnVersion_range constriant rest (newList ++ [swVersion])
            else FilterOnVersion_range constriant rest newList
        end
  end.

Definition FilterOnVersion (list_ : SoftwareVersionList)
    (constriant : Constraints) : SoftwareVersionList :=
  FilterOnVersion_range constriant list_ [].

Fixpoint FilterOnVersionStringList_range (constriant : Constraints)
    (list_ : SoftwareVersionList) (newList : list string) : list string :=
  match list_ with
  | [] => newList
  | swVersion :: rest =>
      if negb (SoftwareVersion.Selectable swVersion)
      then FilterOnVersionStringList_range constriant rest newList
      else
        match version_NewVersion (SoftwareVersion.Name swVersion) with
        | Err _ => FilterOnVersionStringList_range constriant rest newList
        | Ok v =>
            if Constraints_Check constriant v
            then FilterOnVersionStringList_range constriant rest
                   (newList ++ [SoftwareVersion.Name swVersion])
            else FilterOnVersionStringList_range constriant rest newList
        end
  end.

Definition FilterOnVersionStringList (list_ : SoftwareVersionList)
    (constriant : Constraints) : list string :=
  FilterOnVersionStringList_range constriant list_ [].

(** The inclusion condition in the words of the specification:
    selectable, the name parses, and the parsed version satisfies the
    constraint. *)
Definition spec_included (constriant : Constraints)
    (swVersion : SoftwareVersion.t) : bool :=
  SoftwareVersion.Selectable swVersion
  && match version_NewVersion (SoftwareVersion.Name swVersion) with
     | Ok v => Constraints_Check constriant v
     | Err _ => false
     end.
End VersionFilter.

(** ** The world: file system, descriptor table, log, transport *)

Inductive Node : Type :=
| RegularFile (data : bytes)
| Directory.

(** The entry of the descriptor table for an open file: the name it
    was opened under and its offset. *)
Record OpenFile : Type := mkOpenFile {
  of_name : string;
  of_offset : nat
}.

(** A [*os.File]: its descriptor and its name. *)
Record File : Type := mkFile {
  fd : nat;
  name : string
}.

Inductive Level : Type := LevelInfo | LevelDebug.

Record Request : Type := mkRequest {
  Method : string;
  URL : string;
  Body : option bytes;
  Header : list (string * string)
}.

Record World : Type := mkWorld {
  fs : gmap string Node;
  fds : gmap nat OpenFile;
  next_fd : nat;
  logged : list (Level * string);
  sent : list Request
}.

Definition with_fds (f : gmap nat OpenFile -> gmap nat OpenFile) (w : World) : World :=
  {| fs := fs w; fds := f (fds w); next_fd := next_fd w;
     logged := logged w; sent := sent w |}.

Definition with_next_fd (n : nat) (w : World) : World :=
  {| fs := fs w; fds := fds w; next_fd := n;
     logged := logged w; sent := sent w |}.

Definition with_logged (l : list (Level * string)) (w : World) : World :=
  {| fs := fs w; fds := fds w; next_fd := next_fd w;
     logged := l; sent := sent w |}.

Definition with_sent (l : list Request) (w : World) : World :=
  {| fs := fs w; fds := fds w; next_fd := next_fd w;
     logged := logged w; sent := l |}.

(** A handle is open when the descriptor table holds it. *)
Definition is_open (f : File) (w : World) : bool :=
  match fds w !! fd f with
  | Some _ => true
  | None => false
  end.

(** ** The monad of Go code: a world is threaded, a call returns or panics *)

Inductive outcome (A : Type) : Type :=
| Returns (a : A)
| Panics (msg : string).
Arguments Returns {A} a.
Arguments Panics {A} msg.

Definition Go (A : Type) : Type := World -> outcome A * World.

Definition ret {A : Type} (a : A) : Go A := fun w => (Returns a, w).

Definition bind {A B : Type} (m : Go A) (k : A -> Go B) : Go B :=
  fun w =>
    match m w with
    | (Returns a, w') => k a w'
    | (Panics msg, w') => (Panics msg, w')
    end.

Definition panic {A : Type} (msg : string) : Go A := fun w => (Panics msg, w).

Declare Scope go_scope.
Delimit Scope go_scope with go.

Notation "x <- m ;; k" := (bind m (fun x => k))
  (at level 100, m at next level, right associativity) : go_scope.

(** [v, err := call; if err != nil { return h(err) }]: the rest runs on
    the value of a successful call, a failure returns [h err]. *)
Notation "'try' x <- m 'orelse' h ;; k" :=
  (bind m (fun r => match r with
                    | Ok x => k
                    | Err err => ret (h err)
                    end))
  (at level 100, x name, m at next level, h at next level,
   right associativity) : go_scope.

Local Open Scope go_scope.

(** The [err] of a [(_, err)] pair as a bare [error] value. *)
Definition err_of {A : Type} (r : result A) : option error :=
  match r with
  | Ok _ => None
  | Err e => Some e
  end.

(** [list[0]] with Go's bounds check. *)
Definition index0 {A : Type} (l : list A) : Go A :=
  match l with
  | x :: _ => ret x
  | [] => panic "runtime error: index out of range [0] with length 0"
  end.

(** ** Package os *)

Definition syscall_ENOENT : error := foreignError "syscall" "no such file or directory".
Definition syscall_EISDIR : error := foreignError "syscall" "is a directory".
Definition syscall_EINVAL : error := foreignError "syscall" "invalid argument".
Definition os_ErrClosed : error := errorString "file already closed".

Definition os_Open (name : string) : Go (result File) :=
  fun w =>
    match fs w !! name with
    | None => (Returns (Err (PathError "open" name syscall_ENOENT)), w)
    | Some _ =>
        let n := next_fd w in
        (Returns (Ok (mkFile n name)),
         with_next_fd (S n) (with_fds <[n := mkOpenFile name 0]> w))
    end.

(** Read from the current offset up to end of file, as [io.Copy] and a
    decoder's reader do, leaving the offset [advance] bytes further
    (at most at the end). *)
Definition File_read (f : File) (advance : bytes -> nat) : Go (result bytes) :=
  fun w =>
    match fds w !! fd f with
    | None => (Returns (Err (PathError "read" (name f) os_ErrClosed)), w)
    | Some o =>
        match fs w !! of_name o with
        | Some (RegularFile data) =>
            let rest := drop (of_offset o) data in
            let n := Nat.min (advance rest) (length rest) in
            (Returns (Ok rest),
             with_fds <[fd f := mkOpenFile (of_name o) (of_offset o + n)]> w)
        | Some Directory =>
            (Returns (Err (PathError "read" (of_name o) syscall_EISDIR)), w)
        | None =>
            (Returns (Err (PathError "read" (of_name o) syscall_ENOENT)), w)
        end
    end.

Inductive Whence : Type := io_SeekStart | io_SeekCurrent | io_SeekEnd.

Definition File_Seek (f : File) (offset : Z) (whence : Whence) : Go (result Z) :=
  fun w =>
    match fds w !! fd f with
    | None => (Returns (Err (PathError "seek" (name f) os_ErrClosed)), w)
    | Some o =>
        let size :=
          match fs w !! of_name o with
          | Some (RegularFile data) => Z.of_nat (length data)
          | _ => 0
          end in
        let target :=
          match whence with
          | io_SeekStart => offset
          | io_SeekCurrent => Z.of_nat (of_offset o) + offset
          | io_SeekEnd => size + offset
          end in
        if target <? 0
        then (Returns (Err (PathError "seek" (of_name o) syscall_EINVAL)), w)
        else (Returns (Ok target),
              with_fds <[fd f := mkOpenFile (of_name o) (Z.to_nat target)]> w)
    end.

Definition File_Close (f : File) : Go (option error) :=
  fun w =>
    match fds w !! fd f with
    | None => (Returns (Some (PathError "close" (name f) os_ErrClosed)), w)
    | Some _ => (Returns None, with_fds (delete (fd f)) w)
    end.

(** ** Package logging *)

Inductive context_Context : Type := context_Background.

Definition logging_Infof (ctx : context_Context) (format : string)
    (args : list fmt_arg) : Go unit :=
  fun w => (Returns tt,
            with_logged (logged w ++ [(LevelInfo, fmt_Sprintf format args)]) w).

Definition logging_Debugf (ctx : context_Context) (format : string)
    (args : list fmt_arg) : Go unit :=
  fun w => (Returns tt,
            with_logged (logged w ++ [(LevelDebug, fmt_Sprintf format args)]) w).

(** ** Package image *)

Record Point : Type := mkPoint { X : Z; Y : Z }.
Record Rectangle : Type := mkRectangle { Min : Point; Max : Point }.

(** [image.Rect] orders its corners. *)
Definition image_Rect (x0 y0 x1 y1 : Z) : Rectangle :=
  let '(x0, x1) := if x1 <? x0 then (x1, x0) else (x0, x1) in
  let '(y0, y1) := if y1 <? y0 then (y1, y0) else (y0, y1) in
  mkRectangle (mkPoint x0 y0) (mkPoint x1 y1).

Definition Dx (r : Rectangle) : Z := X (Max r) - X (Min r).
Definition Dy (r : Rectangle) : Z := Y (Max r) - Y (Min r).

Record RGBA : Type := mkRGBA {
  Pix : bytes;
  Stride : Z;
  Rect : Rectangle
}.

Definition image_NewRGBA (r : Rectangle) : RGBA :=
  mkRGBA (repeat Byte.x00 (Z.to_nat (4 * Dx r * Dy r))) (4 * Dx r) r.

Definition RGBA_Bounds (p : RGBA) : Rectangle := Rect p.

Inductive draw_Op : Type := draw_Over | draw_Src.

Definition image_ErrFormat : error := errorString "image: unknown format".

(** ** Records of the store API *)

Module Status.
Record t : Type := mk { Id : Z; Name : string; Description : string }.
End Status.

(** The declaration of [Locale] is not part of the file; it is given the
    fields of the locale record inlined in [ExtensionBinary]. *)
Module Locale.
Record t : Type := mk { Id : Z; Name : string }.
End Locale.

Module Changelog.
Record t : Type := mk { Id : Z; Locale_ : Locale.t; Text : string }.
End Changelog.

Module ExtensionBinary.
Record t : Type := mk {
  Id : Z;
  Name : string;
  Version_ : string;
  Status_ : Status.t;
  CompatibleSoftwareVersions : SoftwareVersionList;
  Changelogs : list Changelog.t;
  CreationDate : string;
  LastChangeDate : string;
  IonCubeEncrypted : bool;
  LicenseCheckRequired : bool;
  HasActiveCodeReviewWarnings : bool
}.
End ExtensionBinary.

Module ExtensionUpdateChangelog.
Record t : Type := mk { Locale_ : string; Text : string }.
End ExtensionUpdateChangelog.

Module ExtensionUpdate.
Record t : Type := mk {
  Id : Z;
  SoftwareVersions : list string;
  IonCubeEncrypted : bool;
  LicenseCheckRequired : bool;
  Changelogs : list ExtensionUpdateChangelog.t
}.
End ExtensionUpdate.

Module ExtensionCreate.
Record t : Type := mk {
  SoftwareVersions : list string;
  Changelogs : list ExtensionUpdateChangelog.t;
  Version_ : string
}.
End ExtensionCreate.

Module ImageDetail.
Record t : Type := mk {
  Id : Z;
  Preview : bool;
  Activated : bool;
  Caption : string;
  Locale_ : Locale.t
}.
End ImageDetail.

Module ExtensionImage.
Record t : Type := mk {
  Id : Z;
  RemoteLink : string;
  Details : list ImageDetail.t;
  Priority : Z
}.
End ExtensionImage.

(** ** Collaborators of the endpoint *)

(** The standard and third-party packages the endpoint calls, and the
    constant [ApiUrl], which the file uses and does not declare. *)
Class Platform : Type := {
  ApiUrl : string;
  filepath_Base : string -> string;
  (* mime/multipart: the boundary drawn by NewWriter, the bytes that
     open a part (the flag tells a part after the first) and the
     closing delimiter *)
  multipart_randomBoundary : string;
  multipart_partHeader : bool -> string -> string -> string -> bytes;
  multipart_trailer : string -> bytes;
  multipart_contentType : string -> string;
  (* image with the png, jpeg and gif decoders registered: the decoded
     image and format name of a byte stream, and how far the decoder's
     reader has advanced the stream *)
  Image : Type;
  Image_Bounds : Image -> Rectangle;
  image_decode : bytes -> result (Image * string);
  image_consumed : bytes -> nat;
  (* golang.org/x/image/draw: the pixels of dst after
     CatmullRom.Scale(dst, dr, src, sr, op, nil) *)
  CatmullRom_Scale_Pix : RGBA -> Rectangle -> Image -> Rectangle -> draw_Op -> bytes;
  (* image/png: the encoding of an RGBA image *)
  png_encode : RGBA -> result bytes;
  (* encoding/json *)
  json_Marshal_ExtensionUpdate : ExtensionUpdate.t -> result bytes;
  json_Marshal_ExtensionCreate : ExtensionCreate.t -> result bytes;
  json_Marshal_ExtensionImage : option ExtensionImage.t -> result bytes;
  json_Unmarshal_binaries : bytes -> result (list (option ExtensionBinary.t));
  json_Unmarshal_binary : bytes -> result (option ExtensionBinary.t);
  json_Unmarshal_images : bytes -> result (list (option ExtensionImage.t));
  json_Unmarshal_results : bytes -> result (list BinaryReviewResult.t)
}.

(** Modelled from the spec: the client behind [e.c] is declared outside
    the file.  The spec makes it the collaborator that authenticates a
    request and performs the round trip; here [authorize] gives the
    headers of an authenticated request or fails, and [roundTrip] gives
    the response body or fails. *)
Record Client : Type := mkClient {
  authorize : string -> string -> result (list (string * string));
  roundTrip : Request -> result bytes
}.

Definition Client_NewAuthenticatedRequest (c : Client) (ctx : context_Context)
    (method url : string) (body : option bytes) : Go (result Request) :=
  ret match authorize c method url with
      | Ok header => Ok (mkRequest method url body header)
      | Err e => Err e
      end.

(** A request handed to [doRequest] is recorded in [sent]. *)
Definition Client_doRequest (c : Client) (r : Request) : Go (result bytes) :=
  fun w => (Returns (roundTrip c r), with_sent (sent w ++ [r]) w).

Fixpoint header_set (key value : string) (h : list (string * string))
    : list (string * string) :=
  match h with
  | [] => [(key, value)]
  | (k, v) :: rest =>
      if String.eqb k key then (key, value) :: rest
      else (k, v) :: header_set key value rest
  end.

(** [r.Header.Set(key, value)]. *)
Definition Header_Set (r : Request) (key value : string) : Request :=
  mkRequest (Method r) (URL r) (Body r) (header_set key value (Header r)).

Record ProducerEndpoint : Type := mkProducerEndpoint {
  c : Client;
  producerId : Z
}.

Section Endpoint.
Context `{Platform}.

(** *** mime/multipart over a [bytes.Buffer]

    [var b bytes.Buffer; w := multipart.NewWriter(&b)]: the writer and
    the buffer it fills are one value, [buffer] is [b].  A part is
    named by its number; [lastpart] is the part still open.  A write to
    a [bytes.Buffer] does not fail, so neither does opening a part or
    closing the writer; the code still tests their [err]. *)
Record multipart_Writer : Type := mkWriter {
  buffer : bytes;
  boundary : string;
  parts : nat;
  lastpart : option nat
}.

Definition Part := nat.

Definition multipart_NewWriter : multipart_Writer :=
  mkWriter [] multipart_randomBoundary 0 None.

Definition Writer_CreateFormFile (w : multipart_Writer)
    (fieldname filename : string) : Go (multipart_Writer * result Part) :=
  let header :=
    multipart_partHeader (0 <? parts w)%nat (boundary w) fieldname filename in
  ret (mkWriter (buffer w ++ header) (boundary w) (S (parts w)) (Some (parts w)),
       Ok (parts w)).

Definition multipart_ErrFinished : error :=
  errorString "multipart: can't write to finished part".

(** [p.Write(d)] on a part of [w]. *)
Definition Part_Write (w : multipart_Writer) (p : Part) (d : bytes)
    : multipart_Writer * result Z :=
  match lastpart w with
  | Some q =>
      if Nat.eqb p q
      then (mkWriter (buffer w ++ d) (boundary w) (parts w) (lastpart w),
            Ok (Z.of_nat (length d)))
      else (w, Err multipart_ErrFinished)
  | None => (w, Err multipart_ErrFinished)
  end.

Definition Writer_Close (w : multipart_Writer) : Go (multipart_Writer * option error) :=
  ret (mkWriter (buffer w ++ multipart_trailer (boundary w)) (boundary w)
         (parts w) None,
       None).

Definition Writer_FormDataContentType (w : multipart_Writer) : string :=
  multipart_contentType (boundary w).

(** [io.Copy(dst, src)] from a file into a part: everything from the
    offset to the end of the file. *)
Definition io_Copy (w : multipart_Writer) (dst : Part) (src : File)
    : Go (multipart_Writer * result Z) :=
  r <- File_read src (@length Byte.byte) ;;
  match r with
  | Err e => ret (w, Err e)
  | Ok data => ret (Part_Write w dst data)
  end.

(** [image.Decode(r)] on a file: a stream that cannot be read has no
    recognisable format. *)
Definition image_Decode (r : File) : Go (result (Image * string)) :=
  d <- File_read r image_consumed ;;
  match d with
  | Err _ => ret (Err image_ErrFormat)
  | Ok data => ret (image_decode data)
  end.

(** [draw.CatmullRom.Scale] draws into [dst] in place. *)
Definition draw_CatmullRom_Scale (dst : RGBA) (dr : Rectangle) (src : Image)
    (sr : Rectangle) (op : draw_Op) : RGBA :=
  mkRGBA (CatmullRom_Scale_Pix dst dr src sr op) (Stride dst) (Rect dst).

(** [png.Encode(w, m)] into a part. *)
Definition png_Encode (w : multipart_Writer) (dst : Part) (m : RGBA)
    : Go (multipart_Writer * option error) :=
  match png_encode m with
  | Err e => ret (w, Some e)
  | Ok d =>
      let '(w, r) := Part_Write w dst d in
      ret (w, err_of r)
  end.
End Endpoint.

(** Further shapes of [if err != nil { return h(err) }]: a call on the
    multipart writer also gives the writer back; a call that returns a
    bare [error] has no value to bind. *)
Notation "'tryw' ( w , x ) <- m 'orelse' h ;; k" :=
  (bind m (fun r => match r with
                    | (w, Ok x) => k
                    | (_, Err err) => ret (h err)
                    end))
  (at level 100, w name, x name, m at next level, h at next level,
   right associativity) : go_scope.

Notation "'guard' m 'orelse' h ;; k" :=
  (bind m (fun r => match r with
                    | None => k
                    | Some err => ret (h err)
                    end))
  (at level 100, m at next level, h at next level,
   right associativity) : go_scope.

Notation "'guardw' w <- m 'orelse' h ;; k" :=
  (bind m (fun r => match r with
                    | (w, None) => k
                    | (_, Some err) => ret (h err)
                    end))
  (at level 100, w name, m at next level, h at next level,
   right associativity) : go_scope.

(** ** The producer endpoint *)

Section ProducerEndpoint.
Context `{Platform}.

Definition GetExtensionBinaries (e : ProducerEndpoint) (ctx : context_Context)
    (extensionId : Z) : Go (result (list (option ExtensionBinary.t))) :=
  let errorFormat := "GetExtensionBinaries: %v" in
  let fail : error -> result (list (option ExtensionBinary.t)) :=
    fun err => Err (fmt_Errorf errorFormat [AError err]) in
  try r <- Client_NewAuthenticatedRequest (c e) ctx "GET"
             (fmt_Sprintf "%s/producers/%d/plugins/%d/binaries"
                [AString ApiUrl; AInt (producerId e); AInt extensionId])
             None
    orelse fail ;;
  try body <- Client_doRequest (c e) r orelse fail ;;
  try binaries <- ret (json_Unmarshal_binaries body) orelse fail ;;
  ret (Ok binaries).

Definition UpdateExtensionBinaryInfo (e : ProducerEndpoint) (ctx : context_Context)
    (extensionId : Z) (update : ExtensionUpdate.t) : Go (option error) :=
  let errorFormat := "UpdateExtensionBinaryInfo: %v" in
  let fail : error -> option error :=
    fun err => Some (fmt_Errorf errorFormat [AError err]) in
  try content <- ret (json_Marshal_ExtensionUpdate update) orelse fail ;;
  try r <- Client_NewAuthenticatedRequest (c e) ctx "PUT"
             (fmt_Sprintf "%s/producers/%d/plugins/%d/binaries/%d"
                [AString ApiUrl; AInt (producerId e); AInt extensionId;
                 AInt (ExtensionUpdate.Id update)])
             (Some content)
    orelse fail ;;
  res <- Client_doRequest (c e) r ;;
  ret (err_of res).

Definition CreateExtensionBinary (e : ProducerEndpoint) (ctx : context_Context)
    (extensionId : Z) (create : ExtensionCreate.t)
    : Go (result (option ExtensionBinary.t)) :=
  let errorFormat := "CreateExtensionBinary: %v" in
  let fail : error -> result (option ExtensionBinary.t) :=
    fun err => Err (fmt_Errorf errorFormat [AError err]) in
  try createPayload <- ret (json_Marshal_ExtensionCreate create) orelse fail ;;
  try r <- Client_NewAuthenticatedRequest (c e) ctx "POST"
             (fmt_Sprintf "%s/producers/%d/plugins/%d/binaries"
                [AString ApiUrl; AInt (producerId e); AInt extensionId])
             (Some createPayload)
    orelse fail ;;
  try content <- Client_doRequest (c e) r orelse fail ;;
  try binary <- ret (json_Unmarshal_binary content) orelse fail ;;
  ret (Ok binary).

Definition UpdateExtensionBinaryFile (e : ProducerEndpoint) (ctx : context_Context)
    (extensionId binaryId : Z) (zipPath : string) : Go (option error) :=
  let errorFormat := "UpdateExtensionBinaryFile: %v" in
  let fail : error -> option error :=
    fun err => Some (fmt_Errorf errorFormat [AError err]) in
  let w := multipart_NewWriter in
  tryw (w, fileWritter) <- Writer_CreateFormFile w "file" (filepath_Base zipPath)
    orelse fail ;;
  try zipFile <- os_Open zipPath orelse fail ;;
  tryw (w, _n) <- io_Copy w fileWritter zipFile orelse fail ;;
  guardw w <- Writer_Close w orelse fail ;;
  try r <- Client_NewAuthenticatedRequest (c e) ctx "POST"
             (fmt_Sprintf "%s/producers/%d/plugins/%d/binaries/%d/file"
                [AString ApiUrl; AInt (producerId e); AInt extensionId;
                 AInt binaryId])
             (Some (buffer w))
    orelse fail ;;
  let r := Header_Set r "content-type" (Writer_FormDataContentType w) in
  res <- Client_doRequest (c e) r ;;
  ret (err_of res).

Definition UpdateExtensionIcon (e : ProducerEndpoint) (ctx : context_Context)
    (extensionId : Z) (iconFilePath : string) : Go (option error) :=
  let errorFormat := "UpdateExtensionIcon: %v" in
  let fail : error -> option error :=
    fun err => Some (fmt_Errorf errorFormat [AError err]) in
  let w := multipart_NewWriter in
  tryw (w, fileWriter) <- Writer_CreateFormFile w "file" (filepath_Base iconFilePath)
    orelse fail ;;
  try iconFile <- os_Open iconFilePath orelse fail ;;
  try decoded <- image_Decode iconFile orelse fail ;;
  let img := fst decoded in
  (* the statements after the if/else, run by both branches *)
  let after_if := fun w : multipart_Writer =>
    guard File_Close iconFile orelse fail ;;
    guardw w <- Writer_Close w orelse fail ;;
    try r <- Client_NewAuthenticatedRequest (c e) ctx "POST"
               (fmt_Sprintf "%s/plugins/%d/icon" [AString ApiUrl; AInt extensionId])
               (Some (buffer w))
      orelse fail ;;
    let r := Header_Set r "content-type" (Writer_FormDataContentType w) in
    res <- Client_doRequest (c e) r ;;
    ret (err_of res) in
  if negb (Dx (Image_Bounds img) =? 256) || negb (Dy (Image_Bounds img) =? 256)
  then
    _ <- logging_Infof ctx "Resizing store icon image from %dx%d to 256x256"
           [AInt (Dx (Image_Bounds img)); AInt (Dy (Image_Bounds img))] ;;
    let dst := image_NewRGBA (image_Rect 0 0 256 256) in
    let dst := draw_CatmullRom_Scale dst (RGBA_Bounds dst) img (Image_Bounds img)
                 draw_Over in
    guardw w <- png_Encode w fileWriter dst orelse fail ;;
    after_if w
  else
    _ <- logging_Debugf ctx
           "Store icon image is already 256x256, copying original file" [] ;;
    try _pos <- File_Seek iconFile 0 io_SeekStart orelse fail ;;
    tryw (w, _n) <- io_Copy w fileWriter iconFile orelse fail ;;
    after_if w.

Definition GetExtensionImages (e : ProducerEndpoint) (ctx : context_Context)
    (extensionId : Z) : Go (result (list (option ExtensionImage.t))) :=
  let errorFormat := "GetExtensionImages: %v" in
  let fail : error -> result (list (option ExtensionImage.t)) :=
    fun err => Err (fmt_Errorf errorFormat [AError err]) in
  try r <- Client_NewAuthenticatedRequest (c e) ctx "GET"
             (fmt_Sprintf "%s/plugins/%d/pictures" [AString ApiUrl; AInt extensionId])
             None
    orelse fail ;;
  try body <- Client_doRequest (c e) r orelse fail ;;
  try images <- ret (json_Unmarshal_images body) orelse fail ;;
  ret (Ok images).

Definition DeleteExtensionImages (e : ProducerEndpoint) (ctx : context_Context)
    (extensionId imageId : Z) : Go (option error) :=
  let errorFormat := "DeleteExtensionImages: %v" in
  let fail : error -> option error :=
    fun err => Some (fmt_Errorf errorFormat [AError err]) in
  try r <- Client_NewAuthenticatedRequest (c e) ctx "DELETE"
             (fmt_Sprintf "%s/plugins/%d/pictures/%d"
                [AString ApiUrl; AInt extensionId; AInt imageId])
             None
    orelse fail ;;
  res <- Client_doRequest (c e) r ;;
  ret (err_of res).

(** [image] is a pointer; [image.Id] on [nil] panics. *)
Definition UpdateExtensionImage (e : ProducerEndpoint) (ctx : context_Context)
    (extensionId : Z) (image : option ExtensionImage.t) : Go (option error) :=
  let errorFormat := "UpdateExtensionImage: %v" in
  let fail : error -> option error :=
    fun err => Some (fmt_Errorf errorFormat [AError err]) in
  try content <- ret (json_Marshal_ExtensionImage image) orelse fail ;;
  match image with
  | None => panic "runtime error: invalid memory address or nil pointer dereference"
  | Some image_ =>
      try r <- Client_NewAuthenticatedRequest (c e) ctx "PUT"
                 (fmt_Sprintf "%s/plugins/%d/pictures/%d"
                    [AString ApiUrl; AInt extensionId;
                     AInt (ExtensionImage.Id image_)])
                 (Some content)
        orelse fail ;;
      res <- Client_doRequest (c e) r ;;
      ret (err_of res)
  end.

Definition AddExtensionImage (e : ProducerEndpoint) (ctx : context_Context)
    (extensionId : Z) (file : string) : Go (result (option ExtensionImage.t)) :=
  let errorFormat := "AddExtensionImage: %v" in
  let fail : error -> result (option ExtensionImage.t) :=
    fun err => Err (fmt_Errorf errorFormat [AError err]) in
  let w := multipart_NewWriter in
  tryw (w, fileWritter) <- Writer_CreateFormFile w "file" (filepath_Base file)
    orelse fail ;;
  try zipFile <- os_Open file orelse fail ;;
  tryw (w, _n) <- io_Copy w fileWritter zipFile orelse fail ;;
  guardw w <- Writer_Close w orelse fail ;;
  try r <- Client_NewAuthenticatedRequest (c e) ctx "POST"
             (fmt_Sprintf "%s/plugins/%d/pictures" [AString ApiUrl; AInt extensionId])
             (Some (buffer w))
    orelse fail ;;
  let r := Header_Set r "content-type" (Writer_FormDataContentType w) in
  try body <- Client_doRequest (c e) r orelse fail ;;
  try list_ <- ret (json_Unmarshal_images body)
    orelse (fun err => Err (fmt_Errorf "AddExtensionImage: %v" [AError err])) ;;
  first <- index0 list_ ;;
  ret (Ok first).

Definition TriggerCodeReview (e : ProducerEndpoint) (ctx : context_Context)
    (extensionId : Z) : Go (option error) :=
  let errorFormat := "TriggerCodeReview: %v" in
  let fail : error -> option error :=
    fun err => Some (fmt_Errorf errorFormat [AError err]) in
  try r <- Client_NewAuthenticatedRequest (c e) ctx "POST"
             (fmt_Sprintf "%s/plugins/%d/reviews" [AString ApiUrl; AInt extensionId])
             None
    orelse fail ;;
  res <- Client_doRequest (c e) r ;;
  ret (err_of res).

Definition GetBinaryReviewResults (e : ProducerEndpoint) (ctx : context_Context)
    (extensionId binaryId : Z) : Go (result (list BinaryReviewResult.t)) :=
  let errorFormat := "GetBinaryReviewResults: %v" in
  let fail : error -> result (list BinaryReviewResult.t) :=
    fun err => Err (fmt_Errorf errorFormat [AError err]) in
  try r <- Client_NewAuthenticatedRequest (c e) ctx "GET"
             (fmt_Sprintf "%s/plugins/%d/binaries/%d/checkresults"
                [AString ApiUrl; AInt extensionId; AInt binaryId])
             None
    orelse fail ;;
  try body <- Client_doRequest (c e) r orelse fail ;;
  try results <- ret (json_Unmarshal_results body) orelse fail ;;
  ret (Ok results).
End ProducerEndpoint.

(** ** The summary in the words of the specification *)

Section SummarySpec.
Context `{Bluemonday}.

(** A sub-check is reported when it failed or carries warnings. *)
Definition spec_reported (s : SubCheckResult.t) : bool :=
  negb (SubCheckResult.Passed s) || SubCheckResult.HasWarnings s.

(** A header naming the sub-check, its sanitized message, and a blank
    line. *)
Definition spec_entry (s : SubCheckResult.t) : string :=
  "=== " +:+ SubCheckResult.SubCheck s +:+ " ===" +:+ String LF ""
  +:+ Policy_Sanitize bluemonday_NewPolicy (SubCheckResult.Message s)
  +:+ String LF (String LF "").

Definition spec_summary (review : BinaryReviewResult.t) : string :=
  fold_right String.append ""
    (map spec_entry
       (List.filter spec_reported (BinaryReviewResult.SubCheckResults review))).
End SummarySpec.

(** ** Inputs used by the examples *)

(** A result with the pending id and the success name. *)
Definition pending_named_success : BinaryReviewResult.t :=
  BinaryReviewResult.mk 1 2 (ReviewType.mk 4 "automaticcodereviewsucceeded" "")
    "" "" [].

(** ** Request shapes used to state the upload properties *)

Section UploadSpec.
Context `{Platform}.

(** A multipart body with the single part [file]: the bytes that open
    the part, the content, the closing delimiter. *)
Definition spec_multipart_body (filename : string) (content : bytes) : bytes :=
  multipart_partHeader false multipart_randomBoundary "file" filename
  ++ content ++ multipart_trailer multipart_randomBoundary.

(** The authenticated POST carrying such a body. *)
Definition spec_upload_request (url filename : string) (content : bytes)
    (header : list (string * string)) : Request :=
  mkRequest "POST" url (Some (spec_multipart_body filename content))
    (header_set "content-type" (multipart_contentType multipart_randomBoundary)
       header).

(** The canvas the icon upload draws a resized image into. *)
Definition spec_canvas (img : Image) : RGBA :=
  mkRGBA
    (CatmullRom_Scale_Pix (image_NewRGBA (image_Rect 0 0 256 256))
       (image_Rect 0 0 256 256) img (Image_Bounds img) draw_Over)
    1024 (image_Rect 0 0 256 256).

Definition is_256x256 (img : Image) : bool :=
  (Dx (Image_Bounds img) =? 256) && (Dy (Image_Bounds img) =? 256).
End UploadSpec.

(** ** Stand-ins for the collaborators, to run the model on inputs *)

Module Stub.

(** A stand-in for go-version: dotted decimal versions compared
    component by component, constraints as a conjunction of
    comparator clauses. *)
Fixpoint parse_dotted (s : string) (cur : option nat) (acc : list nat)
    : option (list nat) :=
  match s with
  | EmptyString =>
      match cur with
      | Some n => Some (acc ++ [n])
      | None => None
      end
  | String "." rest =>
      match cur with
      | Some n => parse_dotted rest None (acc ++ [n])
      | None => None
      end
  | String ch rest =>
      match Ascii.is_nat ch with
      | Some d => parse_dotted rest (Some (10 * default 0 cur + d))%nat acc
      | None => None
      end
  end.

Fixpoint compare_dotted (a b : list nat) : comparison :=
  match a, b with
  | [], _ => if forallb (Nat.eqb 0) b then Eq else Lt
  | _, [] => if forallb (Nat.eqb 0) a then Eq else Gt
  | x :: a', y :: b' =>
      match Nat.compare x y with
      | Eq => compare_dotted a' b'
      | o => o
      end
  end.

Inductive comparator : Type := GE | LT.

Definition clause_holds (v : list nat) (cl : comparator * list nat) : bool :=
  match fst cl, compare_dotted v (snd cl) with
  | GE, (Eq | Gt) => true
  | LT, Lt => true
  | _, _ => false
  end.

Definition versions : VersionLib := {|
  Version := list nat;
  Constraints := list (comparator * list nat);
  version_NewVersion := fun s =>
    match parse_dotted s None [] with
    | Some v => Ok v
    | None => Err (errorString ("Malformed version: " +:+ s))
    end;
  Constraints_Check := fun cs v => forallb (clause_holds v) cs
|}.

(** A stand-in for bluemonday's empty policy: tags are dropped, and so
    is the content of a [script] element. *)
Inductive mode : Type :=
| Text
| Tag (acc : string)
| Skip
| SkipTag (acc : string).

Fixpoint strip (m : mode) (s : string) : string :=
  match s with
  | EmptyString => EmptyString
  | String ch rest =>
      match m with
      | Text =>
          if Ascii.eqb ch "<" then strip (Tag "") rest
          else String ch (strip Text rest)
      | Tag acc =>
          if Ascii.eqb ch ">"
          then strip (if String.eqb acc "script" then Skip else Text) rest
          else strip (Tag (acc +:+ String ch "")) rest
      | Skip =>
          if Ascii.eqb ch "<" then strip (SkipTag "") rest
          else strip Skip rest
      | SkipTag acc =>
          if Ascii.eqb ch ">"
          then strip (if String.eqb acc "/script" then Text else Skip) rest
          else strip (SkipTag (acc +:+ String ch "")) rest
      end
  end.

Definition sanitizer : Bluemonday := {|
  Policy := unit;
  bluemonday_NewPolicy := tt;
  Policy_Sanitize := fun _ => strip Text
|}.

(** The reviews of the specification's summary example: one sub-check
    passed without warnings, one failed with markup in its message;
    and a review whose sub-checks all passed. *)
Definition review_one_failed : BinaryReviewResult.t :=
  BinaryReviewResult.mk 1 2 (ReviewType.mk 2 "automaticcodereviewfailed" "")
    "" ""
    [ SubCheckResult.mk "syntax" "ok" true "<b>fine</b>" false;
      SubCheckResult.mk "security" "failed" false "<script>x</script>hello" false ].

Definition review_all_passed : BinaryReviewResult.t :=
  BinaryReviewResult.mk 1 2 (ReviewType.mk 3 "automaticcodereviewsucceeded" "")
    "" ""
    [ SubCheckResult.mk "syntax" "ok" true "<b>fine</b>" false;
      SubCheckResult.mk "security" "ok" true "" false ].

(** The catalogue of the specification's filtering example. *)
Definition catalogue : SoftwareVersionList :=
  [ SoftwareVersion.mk 1 "6.4.0.0" true;
    SoftwareVersion.mk 2 "6.5.0.0" false;
    SoftwareVersion.mk 3 "bad-version" true ].

(** A stand-in platform.  An image file is two size bytes, each a
    quarter of the side in pixels, followed by anything; its decoder reads the
    whole stream. *)
Fixpoint base_from (s acc : string) : string :=
  match s with
  | EmptyString => acc
  | String "/" rest => base_from rest ""
  | String ch rest => base_from rest (acc +:+ String ch "")
  end.

Definition side (b : Byte.byte) : Z := 4 * Z.of_N (Byte.to_N b).

Definition platform : Platform := {|
  ApiUrl := "https://api.example";
  filepath_Base := fun p => base_from p "";
  multipart_randomBoundary := "BOUNDARY";
  multipart_partHeader := fun later b field filename =>
    String.list_byte_of_string
      ((if later then "/--" else "--") +:+ b +:+ "/" +:+ field +:+ "/"
       +:+ filename +:+ "/");
  multipart_trailer := fun b => String.list_byte_of_string ("/--" +:+ b +:+ "--");
  multipart_contentType := fun b => "multipart/form-data; boundary=" +:+ b;
  Image := Rectangle;
  Image_Bounds := fun r => r;
  image_decode := fun d =>
    match d with
    | w :: h :: _ => Ok (image_Rect 0 0 (side w) (side h), "toy")
    | _ => Err image_ErrFormat
    end;
  image_consumed := @length Byte.byte;
  CatmullRom_Scale_Pix := fun dst _ _ _ _ => Pix dst;
  png_encode := fun m =>
    Ok (String.list_byte_of_string "PNG"
        ++ [default Byte.x00 (Byte.of_N (Z.to_N (Dx (Rect m) / 4)))]
        ++ [default Byte.x00 (Byte.of_N (Z.to_N (Dy (Rect m) / 4)))]);
  json_Marshal_ExtensionUpdate := fun _ => Ok (String.list_byte_of_string "{}");
  json_Marshal_ExtensionCreate := fun _ => Ok (String.list_byte_of_string "{}");
  json_Marshal_ExtensionImage := fun _ => Ok (String.list_byte_of_string "{}");
  json_Unmarshal_binaries := fun _ => Ok [];
  json_Unmarshal_binary := fun _ => Ok None;
  json_Unmarshal_images := fun b =>
    match b with
    | [] => Err (foreignError "encoding/json" "unexpected end of JSON input")
    | [x] => Ok [Some (ExtensionImage.mk (Z.of_N (Byte.to_N x)) "" [] 0)]
    | _ => Ok []
    end;
  json_Unmarshal_results := fun _ => Ok []
|}.

(** A client whose server answers every request with [body], and one
    whose round trip fails. *)
Definition client_answering (body : bytes) : Client :=
  mkClient (fun _ _ => Ok [("Authorization", "token")]) (fun _ => Ok body).

Definition connection_refused : error :=
  foreignError "net" "dial tcp: connection refused".

Definition client_down : Client :=
  mkClient (fun _ _ => Ok [("Authorization", "token")])
    (fun _ => Err connection_refused).

Definition icon256 : bytes := [Byte.x40; Byte.x40; Byte.x2a].
Definition icon512x256 : bytes := [Byte.x80; Byte.x40; Byte.x2a; Byte.x2b].
Definition zip : bytes := String.list_byte_of_string "PK-archive".

Definition world : World :=
  mkWorld
    (<["plugin/icon.png" := RegularFile icon256]>
      (<["plugin/wide.png" := RegularFile icon512x256]>
        (<["build/plugin.zip" := RegularFile zip]>
          (<["plugin/notes.txt" := RegularFile (String.list_byte_of_string "x")]>
            ∅))))
    ∅ 0 [] [].

Definition update : ExtensionUpdate.t := ExtensionUpdate.mk 7 ["6.4.0.0"] false false [].
End Stub.

(** An error carries the label of a call site when its text starts with
    the label followed by a colon and a space. *)
Definition has_label (label : string) (err : error) : bool :=
  String.prefix (label +:+ ": ") (Error err).

Definition endpoint_answering (body : bytes) : ProducerEndpoint :=
  mkProducerEndpoint (Stub.client_answering body) 42.

Definition endpoint_down : ProducerEndpoint :=
  mkProducerEndpoint Stub.client_down 42.

(** ** Shapes used to state further properties of the endpoint *)

(** Running [m] from [w] adds at most one request to those sent. *)
Definition grows_by_at_most_one {A : Type} (m : Go A) (w : World) : Prop :=
  exists l, sent (snd (m w)) = sent w ++ l /\ (length l <= 1)%nat.

(** If [m] returns the error [err], then [err] carries [label] or is the
    error of the round trip of the one request [m] sent. *)
Definition labelled_or_round_trip (e : ProducerEndpoint) (label : string)
    (m : Go (option error)) (w : World) (err : error) : Prop :=
  fst (m w) = Returns (Some err) ->
  has_label label err = true
  \/ exists r, sent (snd (m w)) = sent w ++ [r] /\ roundTrip (c e) r = Err err.

(** If [m] returns [nil], it sent one request, of this method and URL,
    and the round trip gave a response. *)
Definition nil_after_round_trip (e : ProducerEndpoint) (method url : string)
    (m : Go (option error)) (w : World) : Prop :=
  fst (m w) = Returns None ->
  exists r body,
    sent (snd (m w)) = sent w ++ [r]
    /\ Method r = method /\ URL r = url
    /\ roundTrip (c e) r = Ok body.

(** If [m] returns the value [v], it sent one request, of this method and
    URL, and [v] is what [decode] makes of the response. *)
Definition value_from_response {A : Type} (e : ProducerEndpoint)
    (method url : string) (decode : bytes -> result A)
    (m : Go (result A)) (w : World) (v : A) : Prop :=
  fst (m w) = Returns (Ok v) ->
  exists r body,
    sent (snd (m w)) = sent w ++ [r]
    /\ Method r = method /\ URL r = url
    /\ roundTrip (c e) r = Ok body
    /\ decode body = Ok v.

(** ** The [project config pull] command *)

Module ProjectConfigPull.

Inductive LogLevel : Type := WarnLevel | InfoLevel.

(** What the command calls and the file does not define: the [shop]
  package, the sync applyers of package [project] with their [Pull]
  method, and yaml.  [cfg] is a [*shop.Config] that [Pull] updates in
  place: [Applyer_Pull] gives the config after the call, with the
  error it returned. *)
Class Shop : Type := {
Config : Type;
ShopClient : Type;
Applyer : Type;
shop_ReadConfig : string -> bool -> gmap string Node -> result Config;
shop_NewShopClient : Config -> result ShopClient;
NewSyncApplyers : Config -> list Applyer;
Applyer_Pull : Applyer -> ShopClient -> Config -> Config * option error;
yaml_Marshal : Config -> result bytes
}.

Definition os_ModePerm : Z := 511.

(** [os.WriteFile] on a file system without permissions: it replaces or
  creates a regular file and fails on a directory. *)
Definition os_WriteFile (name : string) (data : bytes) (perm : Z)
  (files : gmap string Node) : gmap string Node * option error :=
match files !! name with
| Some Directory => (files, Some (PathError "open" name syscall_EISDIR))
| _ => (<[name := RegularFile data]> files, None)
end.

Section Command.
Context `{Shop}.

(** The state the command acts on: the files, the lines logged, and the
applyers whose [Pull] has been called, in call order. *)
Record CmdWorld : Type := mkCmdWorld {
files : gmap string Node;
console : list (LogLevel * string);
pulls : list Applyer
}.

Definition log (level : LogLevel) (format : string) (args : list fmt_arg)
(s : CmdWorld) : CmdWorld :=
mkCmdWorld (files s) (console s ++ [(level, fmt_Sprintf format args)]) (pulls s).

Definition call_Pull (applyer : Applyer) (client : ShopClient) (cfg : Config)
(s : CmdWorld) : Config * option error * CmdWorld :=
(Applyer_Pull applyer client cfg,
mkCmdWorld (files s) (console s) (pulls s ++ [applyer])).

(** [for _, applyer := range NewSyncApplyers(cfg)] with its early
return. *)
Fixpoint Pull_range (applyers : list Applyer) (client : ShopClient)
(cfg : Config) (s : CmdWorld) : Config * option error * CmdWorld :=
match applyers with
| [] => (cfg, None, s)
| applyer :: rest =>
  match call_Pull applyer client cfg s with
  | (cfg, Some err, s) => (cfg, Some err, s)
  | (cfg, None, s) => Pull_range rest client cfg s
  end
end.

Definition deprecation : string :=
"This command is deprecated and will be removed in the future. Please use Fixture Bundle instead https://developer.shopware.com/docs/resources/tooling/fixture-bundle/".

Definition RunE (projectConfigPath : string) (s : CmdWorld)
: option error * CmdWorld :=
let s := log WarnLevel deprecation [] s in
match shop_ReadConfig projectConfigPath false (files s) with
| Err err => (Some err, s)
| Ok cfg =>
  match shop_NewShopClient cfg with
  | Err err => (Some err, s)
  | Ok client =>
      match Pull_range (NewSyncApplyers cfg) client cfg s with
      | (_, Some err, s) => (Some err, s)
      | (cfg, None, s) =>
          match yaml_Marshal cfg with
          | Err err => (Some err, s)
          | Ok content =>
              match os_WriteFile projectConfigPath content os_ModePerm
                      (files s) with
              | (files', Some err) =>
                  (Some err, mkCmdWorld files' (console s) (pulls s))
              | (files', None) =>
                  (None,
                   log InfoLevel "%s has been updated"
                     [AString projectConfigPath]
                     (mkCmdWorld files' (console s) (pulls s)))
              end
          end
      end
  end
end.
(** The config after the pulls of [applyers], in order, and the
condition that each of them succeeds on the config it is given. *)
Fixpoint spec_pulled (client : ShopClient) (cfg : Config)
(applyers : list Applyer) : Config :=
match applyers with
| [] => cfg
| applyer :: rest =>
  spec_pulled client (fst (Applyer_Pull applyer client cfg)) rest
end.

Fixpoint spec_pulls_succeed (client : ShopClient) (cfg : Config)
(applyers : list Applyer) : Prop :=
match applyers with
| [] => True
| applyer :: rest =>
  snd (Applyer_Pull applyer client cfg) = None
  /\ spec_pulls_succeed client (fst (Applyer_Pull applyer client cfg)) rest
end.
End Command.

(** A stand-in shop: a config is the list of the sections pulled into
  it, an applyer is a section name with whether its pull succeeds. *)
Definition stub_shop : Shop := {|
Config := list string;
ShopClient := unit;
Applyer := string * bool;
shop_ReadConfig := fun p _ fs_ =>
  match fs_ !! p with
  | Some (RegularFile _) => Ok []
  | _ => Err (PathError "open" p syscall_ENOENT)
  end;
shop_NewShopClient := fun _ => Ok tt;
NewSyncApplyers := fun _ => [("theme", true); ("mail", false); ("system", true)];
Applyer_Pull := fun a _ cfg =>
  (cfg ++ [fst a],
   if snd a then None else Some (errorString ("pull failed: " +:+ fst a)));
yaml_Marshal := fun cfg =>
  Ok (String.list_byte_of_string (fold_right String.append "" cfg))
|}.

(** The same shop with applyers that all succeed. *)
Definition stub_shop_ok : Shop := {|
Config := list string;
ShopClient := unit;
Applyer := string * bool;
shop_ReadConfig := @shop_ReadConfig stub_shop;
shop_NewShopClient := fun _ => Ok tt;
NewSyncApplyers := fun _ => [("theme", true); ("system", true)];
Applyer_Pull := @Applyer_Pull stub_shop;
yaml_Marshal := @yaml_Marshal stub_shop
|}.

Definition stub_files : gmap string Node :=
<[".shopware-project.yml" := RegularFile (String.list_byte_of_string "url: x")]> ∅.

End ProjectConfigPull.

(** A review whose only sub-check passed with warnings. *)
Definition review_passed_with_warning : BinaryReviewResult.t :=
  BinaryReviewResult.mk 1 2 (ReviewType.mk 3 "automaticcodereviewsucceeded" "")
    "" "" [SubCheckResult.mk "style" "ok" true "<i>long line</i>" true].

(** The command's starting states on the stand-in shops. *)
Definition pull_start : @ProjectConfigPull.CmdWorld ProjectConfigPull.stub_shop :=
  ProjectConfigPull.mkCmdWorld ProjectConfigPull.stub_files [] [].

Definition pull_start_ok
    : @ProjectConfigPull.CmdWorld ProjectConfigPull.stub_shop_ok :=
  ProjectConfigPull.mkCmdWorld ProjectConfigPull.stub_files [] [].

(** * Properties *)

(** ** Strings *)

Lemma string_app_assoc (s1 s2 s3 : string) :
  (s1 +:+ s2) +:+ s3 = s1 +:+ (s2 +:+ s3).
Proof.
  induction s1 as [|x s1 IH]; [reflexivity |].
  change (String x ((s1 +:+ s2) +:+ s3) = String x (s1 +:+ (s2 +:+ s3))).
  f_equal. exact IH.
Qed.

Lemma string_app_nil_r (s : string) : s +:+ "" = s.
Proof.
  induction s as [|x s IH]; [reflexivity |].
  change (String x (s +:+ "") = String x s). f_equal. exact IH.
Qed.

Lemma prefix_app (s t : string) : String.prefix s (s +:+ t) = true.
Proof.
  induction s as [|x s IH].
  - destruct t; reflexivity.
  - change (String x s +:+ t) with (String x (s +:+ t)).
    cbn [String.prefix]. destruct (ascii_dec x x) as [_|Hne];
      [exact IH | contradiction].
Qed.

(** ** Review classification *)

(** C1. [HasPassed] holds exactly when the type id is the success code 3
    or the type name is the success name; a result that matches by name
    alone passes whatever its id. *)
Theorem HasPassed_dual_match (review : BinaryReviewResult.t) :
  (BinaryReviewResult.HasPassed review = true <->
     ReviewType.Id (BinaryReviewResult.Type_ review) = 3
     \/ ReviewType.Name (BinaryReviewResult.Type_ review)
        = "automaticcodereviewsucceeded")
  /\ (forall id bid tid descr msg date subs,
        BinaryReviewResult.HasPassed
          (BinaryReviewResult.mk id bid
             (ReviewType.mk tid "automaticcodereviewsucceeded" descr)
             msg date subs) = true).
Proof.
  split.
  - unfold BinaryReviewResult.HasPassed.
    rewrite orb_true_iff, Z.eqb_eq, String.eqb_eq. reflexivity.
  - intros. unfold BinaryReviewResult.HasPassed. simpl. apply orb_true_r.
Qed.

Example HasPassed_name_only :
  BinaryReviewResult.HasPassed
    (BinaryReviewResult.mk 1 2 (ReviewType.mk 7 "automaticcodereviewsucceeded" "")
       "" "" []) = true.
Proof. reflexivity. Qed.

(** C4, as stated, fails: the result with type id 4 and the success name
    is pending although its success discriminant is present, and it is
    classified both pending and passed. *)
Lemma IsPending_ignores_success_name :
  BinaryReviewResult.IsPending pending_named_success = true
  /\ BinaryReviewResult.HasPassed pending_named_success = true
  /\ ~ (BinaryReviewResult.IsPending pending_named_success = true <->
          ReviewType.Id (BinaryReviewResult.Type_ pending_named_success) = 4
          /\ ~ (ReviewType.Id (BinaryReviewResult.Type_ pending_named_success) = 3
                \/ ReviewType.Name (BinaryReviewResult.Type_ pending_named_success)
                   = "automaticcodereviewsucceeded")).
Proof.
  split; [reflexivity | split; [reflexivity |]].
  intros [Hto _]. destruct (Hto eq_refl) as [_ Hno].
  apply Hno. right. reflexivity.
Qed.

(** C4, amended. [IsPending] holds exactly when the type id is the
    pending code 4, whatever the type name; a result is both pending and
    passed exactly when its id is 4 and its name is the success name. *)
Theorem IsPending_id_only (review : BinaryReviewResult.t) :
  (BinaryReviewResult.IsPending review = true <->
     ReviewType.Id (BinaryReviewResult.Type_ review) = 4)
  /\ (BinaryReviewResult.IsPending review
      && BinaryReviewResult.HasPassed review = true <->
        ReviewType.Id (BinaryReviewResult.Type_ review) = 4
        /\ ReviewType.Name (BinaryReviewResult.Type_ review)
           = "automaticcodereviewsucceeded").
Proof.
  unfold BinaryReviewResult.IsPending, BinaryReviewResult.HasPassed.
  split.
  - apply Z.eqb_eq.
  - rewrite andb_true_iff, orb_true_iff, !Z.eqb_eq, String.eqb_eq.
    split.
    + intros [H4 [H3 | Hn]]; [lia | auto].
    + intros [H4 Hn]. auto.
Qed.

(** ** Warnings *)

Lemma HasWarnings_range_existsb (results : list SubCheckResult.t) :
  BinaryReviewResult.HasWarnings_range results
  = existsb (fun b : bool => b) (map SubCheckResult.HasWarnings results).
Proof.
  induction results as [|r rest IH]; simpl; [reflexivity |].
  destruct (SubCheckResult.HasWarnings r); simpl; [reflexivity | exact IH].
Qed.

(** C8. [HasWarnings] holds exactly when some sub-check sets its warnings
    flag; it is a function of the flags alone, so neither the sub-checks'
    pass state nor the review type matters; with no sub-checks it is
    false. *)
Theorem HasWarnings_any_flag (review : BinaryReviewResult.t) :
  (BinaryReviewResult.HasWarnings review = true <->
     exists s, In s (BinaryReviewResult.SubCheckResults review)
               /\ SubCheckResult.HasWarnings s = true)
  /\ BinaryReviewResult.HasWarnings review
     = existsb (fun b : bool => b)
         (map SubCheckResult.HasWarnings (BinaryReviewResult.SubCheckResults review))
  /\ (forall id bid ty msg date,
        BinaryReviewResult.HasWarnings
          (BinaryReviewResult.mk id bid ty msg date []) = false).
Proof.
  unfold BinaryReviewResult.HasWarnings.
  split; [| split; [apply HasWarnings_range_existsb | reflexivity]].
  rewrite HasWarnings_range_existsb, existsb_exists. split.
  - intros [b [Hin Hb]].
    destruct (proj1 (in_map_iff _ _ _) Hin) as (s & Hs & Hin').
    exists s. subst b. split; [exact Hin' | exact Hs].
  - intros [s [Hin Hs]]. exists true. split; [| reflexivity].
    rewrite <- Hs. apply in_map. exact Hin.
Qed.

(** ** Summary *)

Section SummaryProps.
Context `{Bluemonday}.

Lemma Sprintf_header (x : string) :
  fmt_Sprintf (golit "=== %s ===\n") [AString x]
  = "=== " +:+ x +:+ " ===" +:+ String LF "".
Proof. reflexivity. Qed.

Lemma Sprintf_message (x : string) :
  fmt_Sprintf (golit "%s\n\n") [AString x] = x +:+ String LF (String LF "").
Proof. reflexivity. Qed.

Lemma GetSummary_range_spec (results : list SubCheckResult.t) (message : string) :
  BinaryReviewResult.GetSummary_range bluemonday_NewPolicy results message
  = message +:+ fold_right String.append ""
                  (map spec_entry (List.filter spec_reported results)).
Proof.
  revert message.
  induction results as [|r rest IH]; intros message.
  - symmetry. apply string_app_nil_r.
  - cbn [BinaryReviewResult.GetSummary_range List.filter].
    unfold spec_reported at 1.
    destruct (SubCheckResult.Passed r), (SubCheckResult.HasWarnings r);
      cbn [andb negb orb map fold_right]; rewrite IH; try reflexivity;
      rewrite Sprintf_header, Sprintf_message;
      unfold spec_entry; rewrite !string_app_assoc; reflexivity.
Qed.

(** C5. [GetSummary] is the concatenation, in order, of one entry per
    sub-check that failed or carries warnings: the header naming the
    sub-check, then its sanitized message, then a blank line.  The other
    sub-checks add nothing, so when every sub-check passed without
    warnings the summary is empty. *)
Theorem GetSummary_reported_entries (review : BinaryReviewResult.t) :
  BinaryReviewResult.GetSummary review = spec_summary review
  /\ (forallb (fun s => SubCheckResult.Passed s
                        && negb (SubCheckResult.HasWarnings s))
        (BinaryReviewResult.SubCheckResults review) = true ->
      BinaryReviewResult.GetSummary review = "").
Proof.
  unfold BinaryReviewResult.GetSummary, spec_summary.
  rewrite GetSummary_range_spec. split; [reflexivity |].
  intros Hall.
  induction (BinaryReviewResult.SubCheckResults review) as [|r rest IH];
    [reflexivity |].
  cbn [forallb] in Hall. apply andb_true_iff in Hall as [Hr Hrest].
  cbn [List.filter]. unfold spec_reported at 1.
  destruct (SubCheckResult.Passed r), (SubCheckResult.HasWarnings r);
    try discriminate Hr.
  cbn [negb orb]. apply IH. exact Hrest.
Qed.
End SummaryProps.

(** ** Version filter *)

Lemma filter_sublist {A : Type} (f : A -> bool) (l : list A) :
  sublist (List.filter f l) l.
Proof.
  induction l as [|x l IH]; cbn [List.filter]; [constructor |].
  destruct (f x); [apply sublist_skip | apply sublist_cons]; exact IH.
Qed.

Lemma filter_idem {A : Type} (f : A -> bool) (l : list A) :
  List.filter f (List.filter f l) = List.filter f l.
Proof.
  induction l as [|x l IH]; cbn [List.filter]; [reflexivity |].
  destruct (f x) eqn:Hx; cbn [List.filter]; [rewrite Hx, IH |]; auto.
Qed.

Section VersionFilterProps.
Context `{VersionLib}.

Lemma FilterOnVersion_range_spec (constriant : Constraints)
    (l newList : SoftwareVersionList) :
  FilterOnVersion_range constriant l newList
  = newList ++ List.filter (spec_included constriant) l.
Proof.
  revert newList.
  induction l as [|sw rest IH]; intros newList;
    cbn [FilterOnVersion_range List.filter].
  - symmetry. apply app_nil_r.
  - unfold spec_included at 1.
    destruct (SoftwareVersion.Selectable sw); cbn [negb andb];
      [| apply IH].
    destruct (version_NewVersion (SoftwareVersion.Name sw)) as [v|err];
      [| apply IH].
    destruct (Constraints_Check constriant v); [| apply IH].
    rewrite IH, <- app_assoc. reflexivity.
Qed.

Lemma FilterOnVersionStringList_range_spec (constriant : Constraints)
    (l : SoftwareVersionList) (newList : list string) :
  FilterOnVersionStringList_range constriant l newList
  = newList ++ map SoftwareVersion.Name
                 (List.filter (spec_included constriant) l).
Proof.
  revert newList.
  induction l as [|sw rest IH]; intros newList;
    cbn [FilterOnVersionStringList_range List.filter].
  - symmetry. apply app_nil_r.
  - unfold spec_included at 1.
    destruct (SoftwareVersion.Selectable sw); cbn [negb andb];
      [| apply IH].
    destruct (version_NewVersion (SoftwareVersion.Name sw)) as [v|err];
      [| apply IH].
    destruct (Constraints_Check constriant v); [| apply IH].
    rewrite IH, <- app_assoc. reflexivity.
Qed.

Lemma spec_included_iff (constriant : Constraints) (sw : SoftwareVersion.t) :
  spec_included constriant sw = true <->
    SoftwareVersion.Selectable sw = true
    /\ exists v, version_NewVersion (SoftwareVersion.Name sw) = Ok v
                 /\ Constraints_Check constriant v = true.
Proof.
  unfold spec_included. rewrite andb_true_iff.
  destruct (version_NewVersion (SoftwareVersion.Name sw)) as [v|err].
  - split.
    + intros [Hs Hc]. split; [exact Hs | exists v; auto].
    + intros [Hs [v' [Hv Hc]]]. injection Hv as ->. auto.
  - split.
    + intros [_ Hf]. discriminate Hf.
    + intros [_ [v' [Hv _]]]. discriminate Hv.
Qed.

(** C2. [FilterOnVersion] keeps exactly the entries that are selectable,
    whose name parses and whose version satisfies the constraint, in
    their order in the input; [FilterOnVersionStringList] gives their
    names.  Both are total functions into lists: the entries left out
    are skipped and no error is returned. *)
Theorem FilterOnVersion_keeps_compatible (l : SoftwareVersionList)
    (constriant : Constraints) :
  FilterOnVersion l constriant = List.filter (spec_included constriant) l
  /\ FilterOnVersionStringList l constriant
     = map SoftwareVersion.Name (FilterOnVersion l constriant)
  /\ (forall sw, In sw (FilterOnVersion l constriant) <->
        In sw l
        /\ SoftwareVersion.Selectable sw = true
        /\ exists v, version_NewVersion (SoftwareVersion.Name sw) = Ok v
                     /\ Constraints_Check constriant v = true)
  /\ sublist (FilterOnVersion l constriant) l.
Proof.
  unfold FilterOnVersion, FilterOnVersionStringList.
  rewrite FilterOnVersion_range_spec, FilterOnVersionStringList_range_spec.
  cbn [app].
  split; [reflexivity | split; [reflexivity | split]].
  - intros sw. rewrite filter_In, spec_included_iff. tauto.
  - apply filter_sublist.
Qed.

(** C10. Filtering the result of [FilterOnVersion] again with the same
    constraint gives that result back. *)
Theorem FilterOnVersion_idempotent (l : SoftwareVersionList)
    (constriant : Constraints) :
  FilterOnVersion (FilterOnVersion l constriant) constriant
  = FilterOnVersion l constriant.
Proof.
  unfold FilterOnVersion. rewrite !FilterOnVersion_range_spec.
  cbn [app]. apply filter_idem.
Qed.
End VersionFilterProps.

Example FilterOnVersion_catalogue :
  @FilterOnVersion Stub.versions Stub.catalogue [(Stub.GE, [6; 4; 0; 0]%nat)]
  = [SoftwareVersion.mk 1 "6.4.0.0" true]
  /\ @FilterOnVersionStringList Stub.versions Stub.catalogue
       [(Stub.GE, [6; 4; 0; 0]%nat)]
     = ["6.4.0.0"].
Proof. split; reflexivity. Qed.

(** ** Running endpoint code *)

Ltac go_unfold :=
  unfold bind, ret, panic, Writer_CreateFormFile, os_Open, image_Decode,
    File_read, File_Seek, io_Copy, File_Close, Writer_Close,
    Client_NewAuthenticatedRequest, Client_doRequest, logging_Debugf,
    logging_Infof, png_Encode, Part_Write, multipart_NewWriter, index0,
    Header_Set, Writer_FormDataContentType.

Ltac go_cbn :=
  cbn [fs fds next_fd logged sent with_fds with_next_fd with_logged with_sent
       fd name of_name of_offset buffer boundary parts lastpart fst snd
       Method URL Body Header err_of Nat.eqb Nat.ltb Nat.leb
       Z.to_nat Z.ltb Z.compare negb orb andb app].

(** Run the code as far as the hypotheses in context decide it. *)
Ltac go_run :=
  repeat first
    [ progress go_unfold
    | progress go_cbn
    | rewrite lookup_insert_eq
    | rewrite drop_0
    | match goal with Hx : _ = _ |- _ => rewrite Hx end ].

Section UploadProps.
Context `{Platform}.
Variables (e : ProducerEndpoint) (ctx : context_Context) (extensionId : Z).

(** C3. When the icon file decodes to a 256x256 image, the request sent
    carries the file's own bytes as the content of its part; when it
    decodes to any other size, the canvas is 256x256, freshly allocated
    and drawn by Catmull-Rom scaling, and the request carries its PNG
    encoding, whatever format the file had. *)
Theorem UpdateExtensionIcon_uploaded_bytes
    (iconFilePath : string) (w : World) (data : bytes) (img : Image)
    (format : string) (header : list (string * string)) :
  fs w !! iconFilePath = Some (RegularFile data) ->
  image_decode data = Ok (img, format) ->
  authorize (c e) "POST"
    (fmt_Sprintf "%s/plugins/%d/icon" [AString ApiUrl; AInt extensionId])
  = Ok header ->
  (is_256x256 img = true ->
     exists res w',
       UpdateExtensionIcon e ctx extensionId iconFilePath w = (Returns res, w')
       /\ sent w' = sent w
                    ++ [spec_upload_request
                          (fmt_Sprintf "%s/plugins/%d/icon"
                             [AString ApiUrl; AInt extensionId])
                          (filepath_Base iconFilePath) data header])
  /\ (is_256x256 img = false ->
        Rect (spec_canvas img) = mkRectangle (mkPoint 0 0) (mkPoint 256 256)
        /\ spec_canvas img
           = draw_CatmullRom_Scale (image_NewRGBA (image_Rect 0 0 256 256))
               (image_Rect 0 0 256 256) img (Image_Bounds img) draw_Over
        /\ forall png, png_encode (spec_canvas img) = Ok png ->
             exists res w',
               UpdateExtensionIcon e ctx extensionId iconFilePath w
               = (Returns res, w')
               /\ sent w' = sent w
                            ++ [spec_upload_request
                                  (fmt_Sprintf "%s/plugins/%d/icon"
                                     [AString ApiUrl; AInt extensionId])
                                  (filepath_Base iconFilePath) png header]).
Proof.
  intros Hfs Hdec Hauth. split.
  - intros Hsz. unfold is_256x256 in Hsz.
    apply andb_true_iff in Hsz as [Hx Hy].
    unfold UpdateExtensionIcon. go_run.
    eexists _, _. split; [reflexivity |].
    go_cbn. unfold spec_upload_request, spec_multipart_body.
    rewrite <- app_assoc. reflexivity.
  - intros Hsz. split; [reflexivity | split; [reflexivity |]].
    intros png Hpng.
    change (png_encode
              (draw_CatmullRom_Scale (image_NewRGBA (image_Rect 0 0 256 256))
                 (RGBA_Bounds (image_NewRGBA (image_Rect 0 0 256 256)))
                 img (Image_Bounds img) draw_Over) = Ok png) in Hpng.
    assert (Hresize : negb (Dx (Image_Bounds img) =? 256)
                      || negb (Dy (Image_Bounds img) =? 256) = true).
    { unfold is_256x256 in Hsz.
      destruct (Dx (Image_Bounds img) =? 256), (Dy (Image_Bounds img) =? 256);
        (reflexivity || discriminate Hsz). }
    clear Hsz.
    unfold UpdateExtensionIcon. go_run.
    eexists _, _. split; [reflexivity |].
    go_cbn. unfold spec_upload_request, spec_multipart_body.
    rewrite <- app_assoc. reflexivity.
Qed.

(** C6. When the response to the gallery upload deserializes to the
    empty list, [AddExtensionImage] panics on [list[0]] with an index
    out of range, and so returns no error value; when it deserializes
    to a one-element list, that element is returned. *)
Theorem AddExtensionImage_first_element
    (file : string) (w : World) (data : bytes)
    (header : list (string * string)) (body : bytes) :
  fs w !! file = Some (RegularFile data) ->
  authorize (c e) "POST"
    (fmt_Sprintf "%s/plugins/%d/pictures" [AString ApiUrl; AInt extensionId])
  = Ok header ->
  roundTrip (c e)
    (spec_upload_request
       (fmt_Sprintf "%s/plugins/%d/pictures" [AString ApiUrl; AInt extensionId])
       (filepath_Base file) data header)
  = Ok body ->
  (json_Unmarshal_images body = Ok [] ->
     exists w',
       AddExtensionImage e ctx extensionId file w
       = (Panics "runtime error: index out of range [0] with length 0", w'))
  /\ (forall image, json_Unmarshal_images body = Ok [image] ->
        exists w',
          AddExtensionImage e ctx extensionId file w = (Returns (Ok image), w')).
Proof.
  intros Hfs Hauth Hresp.
  unfold spec_upload_request, spec_multipart_body in Hresp.
  rewrite app_assoc in Hresp.
  split; [intros Hlist | intros image Hlist];
    unfold AddExtensionImage; go_run; eexists; reflexivity.
Qed.
End UploadProps.

Section ErrorPaths.
Context `{Platform}.
Variables (e : ProducerEndpoint) (ctx : context_Context) (extensionId : Z).

Lemma Sprintf_label_UpdateExtensionBinaryInfo (err : error) :
  fmt_Sprintf "UpdateExtensionBinaryInfo: %v" [AError err]
  = "UpdateExtensionBinaryInfo: " +:+ Error err +:+ "".
Proof. reflexivity. Qed.

(** The error of [UpdateExtensionBinaryInfo], path by path: a failure
    to marshal or to build the request is formatted under the label,
    the result of the round trip is returned as it is. *)
Lemma UpdateExtensionBinaryInfo_error (update : ExtensionUpdate.t) (w : World) :
  fst (UpdateExtensionBinaryInfo e ctx extensionId update w)
  = Returns
      match json_Marshal_ExtensionUpdate update with
      | Err err =>
          Some (errorString ("UpdateExtensionBinaryInfo: " +:+ Error err +:+ ""))
      | Ok content =>
          let url :=
            fmt_Sprintf "%s/producers/%d/plugins/%d/binaries/%d"
              [AString ApiUrl; AInt (producerId e); AInt extensionId;
               AInt (ExtensionUpdate.Id update)] in
          match authorize (c e) "PUT" url with
          | Err err =>
              Some (errorString
                      ("UpdateExtensionBinaryInfo: " +:+ Error err +:+ ""))
          | Ok header =>
              err_of (roundTrip (c e) (mkRequest "PUT" url (Some content) header))
          end
      end.
Proof.
  unfold UpdateExtensionBinaryInfo, fmt_Errorf. go_run.
  destruct (json_Marshal_ExtensionUpdate update) as [content|err]; go_run;
    [| rewrite Sprintf_label_UpdateExtensionBinaryInfo; reflexivity].
  destruct (authorize (c e) "PUT" _) as [header|err]; go_run;
    [reflexivity | rewrite Sprintf_label_UpdateExtensionBinaryInfo; reflexivity].
Qed.

Lemma label_UpdateExtensionBinaryInfo (err : error) :
  has_label "UpdateExtensionBinaryInfo"
    (errorString ("UpdateExtensionBinaryInfo: " +:+ Error err +:+ "")) = true.
Proof. exact (prefix_app "UpdateExtensionBinaryInfo: " (Error err +:+ "")). Qed.

(** Once [os.Open] has succeeded, no path of the artifact upload
    closes the handle. *)
Lemma UpdateExtensionBinaryFile_never_closes
    (binaryId : Z) (zipPath : string) (w : World) (node : Node) :
  fs w !! zipPath = Some node ->
  is_open (mkFile (next_fd w) zipPath)
    (snd (UpdateExtensionBinaryFile e ctx extensionId binaryId zipPath w)) = true.
Proof.
  intros Hfs. unfold UpdateExtensionBinaryFile, is_open. go_run.
  destruct node as [data|]; go_run.
  - destruct (authorize (c e) "POST" _) as [header|err]; go_run; reflexivity.
  - reflexivity.
Qed.

(** The same holds for the gallery upload, on the paths that return. *)
Lemma AddExtensionImage_never_closes
    (file : string) (w : World) (node : Node) :
  fs w !! file = Some node ->
  is_open (mkFile (next_fd w) file)
    (snd (AddExtensionImage e ctx extensionId file w)) = true.
Proof.
  intros Hfs. unfold AddExtensionImage, is_open. go_run.
  destruct node as [data|]; go_run; [| reflexivity].
  destruct (authorize (c e) "POST" _) as [header|err]; go_run; [| reflexivity].
  destruct (roundTrip (c e) _) as [body|err]; go_run; [| reflexivity].
  destruct (json_Unmarshal_images body) as [[|image rest]|err]; go_run;
    reflexivity.
Qed.

(** The icon upload returns without closing the handle whenever
    decoding fails. *)
Lemma UpdateExtensionIcon_decode_failure_leaks
    (iconFilePath : string) (w : World) (data : bytes) (err : error) :
  fs w !! iconFilePath = Some (RegularFile data) ->
  image_decode data = Err err ->
  fst (UpdateExtensionIcon e ctx extensionId iconFilePath w)
  = Returns (Some (fmt_Errorf "UpdateExtensionIcon: %v" [AError err]))
  /\ is_open (mkFile (next_fd w) iconFilePath)
       (snd (UpdateExtensionIcon e ctx extensionId iconFilePath w)) = true.
Proof.
  intros Hfs Hdec. unfold UpdateExtensionIcon, is_open. go_run.
  split; reflexivity.
Qed.
End ErrorPaths.

(** ** Runs on the stand-in platform *)

Example GetSummary_one_failed :
  @BinaryReviewResult.GetSummary Stub.sanitizer Stub.review_one_failed
  = "=== security ===" +:+ String LF "" +:+ "hello" +:+ String LF (String LF "").
Proof. reflexivity. Qed.

Lemma GetSummary_reported_entries_witness :
  @BinaryReviewResult.GetSummary Stub.sanitizer Stub.review_all_passed = "".
Proof.
  apply (proj2 (@GetSummary_reported_entries Stub.sanitizer Stub.review_all_passed)).
  reflexivity.
Defined.

Lemma UpdateExtensionIcon_uploaded_bytes_witness :
  (exists res w',
     @UpdateExtensionIcon Stub.platform (endpoint_answering []) context_Background
       3 "plugin/icon.png" Stub.world = (Returns res, w')
     /\ sent w' = sent Stub.world
                  ++ [@spec_upload_request Stub.platform
                        "https://api.example/plugins/3/icon" "icon.png"
                        Stub.icon256 [("Authorization", "token")]])
  /\ (exists res w',
        @UpdateExtensionIcon Stub.platform (endpoint_answering []) context_Background
          3 "plugin/wide.png" Stub.world = (Returns res, w')
        /\ sent w' = sent Stub.world
                     ++ [@spec_upload_request Stub.platform
                           "https://api.example/plugins/3/icon" "wide.png"
                           (String.list_byte_of_string "PNG@@")
                           [("Authorization", "token")]]).
Proof.
  split.
  - apply (proj1 (@UpdateExtensionIcon_uploaded_bytes Stub.platform
                    (endpoint_answering []) context_Background 3
                    "plugin/icon.png" Stub.world Stub.icon256
                    (image_Rect 0 0 256 256) "toy" [("Authorization", "token")]
                    eq_refl eq_refl eq_refl)).
    reflexivity.
  - apply (proj2 (@UpdateExtensionIcon_uploaded_bytes Stub.platform
                    (endpoint_answering []) context_Background 3
                    "plugin/wide.png" Stub.world Stub.icon512x256
                    (image_Rect 0 0 512 256) "toy" [("Authorization", "token")]
                    eq_refl eq_refl eq_refl));
      reflexivity.
Defined.

Lemma AddExtensionImage_first_element_witness :
  (exists w',
     @AddExtensionImage Stub.platform
       (endpoint_answering [Byte.x05; Byte.x05]) context_Background 3
       "plugin/wide.png" Stub.world
     = (Panics "runtime error: index out of range [0] with length 0", w'))
  /\ (exists w',
        @AddExtensionImage Stub.platform (endpoint_answering [Byte.x05])
          context_Background 3 "plugin/wide.png" Stub.world
        = (Returns (Ok (Some (ExtensionImage.mk 5 "" [] 0))), w')).
Proof.
  split.
  - apply (proj1 (@AddExtensionImage_first_element Stub.platform
                    (endpoint_answering [Byte.x05; Byte.x05]) context_Background 3
                    "plugin/wide.png" Stub.world Stub.icon512x256
                    [("Authorization", "token")] [Byte.x05; Byte.x05]
                    eq_refl eq_refl eq_refl)).
    reflexivity.
  - apply (proj2 (@AddExtensionImage_first_element Stub.platform
                    (endpoint_answering [Byte.x05]) context_Background 3
                    "plugin/wide.png" Stub.world Stub.icon512x256
                    [("Authorization", "token")] [Byte.x05]
                    eq_refl eq_refl eq_refl)).
    reflexivity.
Defined.

(** C7. With a server that refuses the connection, the operations that
    return a bare error hand the transport's error back as it is, with no
    call-site label, while the operations that also return a value label
    the same failure. *)
Theorem request_error_escapes_unlabelled :
  let ctx := context_Background in
  let run {A : Type} (m : Go A) := fst (m Stub.world) in
  let raw := Returns (Some Stub.connection_refused) in
  run (@UpdateExtensionBinaryInfo Stub.platform endpoint_down ctx 3 Stub.update) = raw
  /\ has_label "UpdateExtensionBinaryInfo" Stub.connection_refused = false
  /\ run (@UpdateExtensionBinaryFile Stub.platform endpoint_down ctx 3 9
            "build/plugin.zip") = raw
  /\ has_label "UpdateExtensionBinaryFile" Stub.connection_refused = false
  /\ run (@UpdateExtensionIcon Stub.platform endpoint_down ctx 3 "plugin/icon.png")
     = raw
  /\ has_label "UpdateExtensionIcon" Stub.connection_refused = false
  /\ run (@DeleteExtensionImages Stub.platform endpoint_down ctx 3 5) = raw
  /\ has_label "DeleteExtensionImages" Stub.connection_refused = false
  /\ run (@UpdateExtensionImage Stub.platform endpoint_down ctx 3
            (Some (ExtensionImage.mk 5 "" [] 0))) = raw
  /\ has_label "UpdateExtensionImage" Stub.connection_refused = false
  /\ run (@TriggerCodeReview Stub.platform endpoint_down ctx 3) = raw
  /\ has_label "TriggerCodeReview" Stub.connection_refused = false
  /\ run (@GetExtensionBinaries Stub.platform endpoint_down ctx 3)
     = Returns (Err (errorString
                       "GetExtensionBinaries: dial tcp: connection refused"))
  /\ run (@AddExtensionImage Stub.platform endpoint_down ctx 3 "plugin/wide.png")
     = Returns (Err (errorString
                       "AddExtensionImage: dial tcp: connection refused")).
Proof. cbv zeta. repeat split; vm_compute; reflexivity. Qed.

(** C9. The handle opened by the artifact upload and by the gallery
    upload is still open when the call returns, also when it succeeds;
    the handle opened by the icon upload is still open when decoding
    fails, and is closed when the upload goes through. *)
Theorem upload_leaves_handle_open :
  let ctx := context_Background in
  let e := endpoint_answering [Byte.x05] in
  let artifact :=
    @UpdateExtensionBinaryFile Stub.platform e ctx 3 9 "build/plugin.zip" Stub.world in
  let gallery :=
    @AddExtensionImage Stub.platform e ctx 3 "plugin/wide.png" Stub.world in
  let icon_undecodable :=
    @UpdateExtensionIcon Stub.platform e ctx 3 "plugin/notes.txt" Stub.world in
  let icon_ok :=
    @UpdateExtensionIcon Stub.platform e ctx 3 "plugin/icon.png" Stub.world in
  (fst artifact = Returns None
   /\ is_open (mkFile 0 "build/plugin.zip") (snd artifact) = true)
  /\ (fst gallery = Returns (Ok (Some (ExtensionImage.mk 5 "" [] 0)))
      /\ is_open (mkFile 0 "plugin/wide.png") (snd gallery) = true)
  /\ (fst icon_undecodable
      = Returns (Some (errorString "UpdateExtensionIcon: image: unknown format"))
      /\ is_open (mkFile 0 "plugin/notes.txt") (snd icon_undecodable) = true)
  /\ (fst icon_ok = Returns None
      /\ is_open (mkFile 0 "plugin/icon.png") (snd icon_ok) = false).
Proof. cbv zeta. repeat split; vm_compute; reflexivity. Qed.

(** ** Requests, errors and handles across the endpoint *)

Ltac destruct_stuck :=
  match goal with
  | |- context [match ?x with _ => _ end] =>
      lazymatch x with
      | context [match _ with _ => _ end] => fail
      | _ => destruct x eqn:?
      end
  end.

(** Run the code through every branch the context leaves open. *)
Ltac go_split := repeat (go_run; destruct_stuck); go_run.

Ltac at_most_one :=
  first [ exists []; split; [symmetry; apply app_nil_r | cbn; lia]
        | eexists [_]; split; [reflexivity | cbn; lia] ].

(** The goal [prefix label text = true] for the text of an error built
    by [fmt.Errorf] from [x] under the label. *)
Ltac label_prefix x :=
  unfold has_label;
  match goal with
  | |- String.prefix ?p _ = true =>
      let p' := eval vm_compute in p in
      exact (prefix_app p' (Error x +:+ ""))
  end.

Ltac labelled :=
  first [ let Heq := fresh in intros Heq; discriminate Heq
        | match goal with
          | |- Returns (Err (errorString (fmt_Sprintf _ [AError ?x])))
               = Returns (Err _) -> _ =>
              let Heq := fresh in
              intros Heq; injection Heq as <-; label_prefix x
          end ].

Ltac labelled_or_raw :=
  first [ let Heq := fresh in intros Heq; discriminate Heq
        | match goal with
          | |- Returns (Some (errorString (fmt_Sprintf _ [AError ?x])))
               = Returns (Some _) -> _ =>
              let Heq := fresh in
              intros Heq; injection Heq as <-; left; label_prefix x
          end
        | match goal with
          | |- context [err_of ?x] =>
              destruct x eqn:?; cbn [err_of];
              let Heq := fresh in
              intros Heq;
              first [ discriminate Heq
                    | injection Heq as <-; right;
                      eexists; split; [reflexivity | eassumption] ]
          end ].

(** The goal [URL r = text]: the URL is a [fmt.Sprintf] of a literal
    format, whose value ends in the empty rest of the format. *)
Ltac url_eq :=
  cbn [URL];
  first [ reflexivity
        | cbv [fmt_Sprintf fmt_operand]; rewrite string_app_nil_r; reflexivity ].

Ltac answered :=
  first [ let Heq := fresh in intros Heq; discriminate Heq
        | match goal with
          | |- context [err_of ?x] =>
              destruct x eqn:?; cbn [err_of];
              let Heq := fresh in
              intros Heq;
              first [ discriminate Heq
                    | eexists _, _;
                      split; [reflexivity |];
                      split; [reflexivity |];
                      split; [url_eq | eassumption] ]
          end ].

Ltac decoded :=
  first [ let Heq := fresh in intros Heq; discriminate Heq
        | let Heq := fresh in
          intros Heq; injection Heq as <-;
          eexists _, _;
          split; [reflexivity |];
          split; [reflexivity |];
          split; [url_eq |];
          split; eassumption ].

Section EndpointProps.
Context `{Platform}.
Variables (e : ProducerEndpoint) (ctx : context_Context) (extensionId : Z).

(** X1. No operation of the endpoint retries: whatever happens, a call
  adds at most one request to those sent, after the ones sent before. *)
Theorem endpoint_sends_at_most_one_request (w : World) :
grows_by_at_most_one (GetExtensionBinaries e ctx extensionId) w
/\ (forall update,
      grows_by_at_most_one (UpdateExtensionBinaryInfo e ctx extensionId update) w)
/\ (forall create,
      grows_by_at_most_one (CreateExtensionBinary e ctx extensionId create) w)
/\ (forall binaryId zipPath,
      grows_by_at_most_one
        (UpdateExtensionBinaryFile e ctx extensionId binaryId zipPath) w)
/\ (forall iconFilePath,
      grows_by_at_most_one (UpdateExtensionIcon e ctx extensionId iconFilePath) w)
/\ grows_by_at_most_one (GetExtensionImages e ctx extensionId) w
/\ (forall imageId,
      grows_by_at_most_one (DeleteExtensionImages e ctx extensionId imageId) w)
/\ (forall image,
      grows_by_at_most_one (UpdateExtensionImage e ctx extensionId image) w)
/\ (forall file,
      grows_by_at_most_one (AddExtensionImage e ctx extensionId file) w)
/\ grows_by_at_most_one (TriggerCodeReview e ctx extensionId) w
/\ (forall binaryId,
      grows_by_at_most_one (GetBinaryReviewResults e ctx extensionId binaryId) w).
Proof.
unfold grows_by_at_most_one.
repeat split; intros.
- unfold GetExtensionBinaries. go_split; at_most_one.
- unfold UpdateExtensionBinaryInfo. go_split; at_most_one.
- unfold CreateExtensionBinary. go_split; at_most_one.
- unfold UpdateExtensionBinaryFile. go_split; at_most_one.
- unfold UpdateExtensionIcon. go_split; at_most_one.
- unfold GetExtensionImages. go_split; at_most_one.
- unfold DeleteExtensionImages. go_split; at_most_one.
- unfold UpdateExtensionImage. go_split; at_most_one.
- unfold AddExtensionImage. go_split; at_most_one.
- unfold TriggerCodeReview. go_split; at_most_one.
- unfold GetBinaryReviewResults. go_split; at_most_one.
Qed.

(** X2. The operations that return a value label every error they
  return: all of binary list and create, gallery list and add, and
  review fetch return only errors whose text starts with their own
  name. *)
Theorem value_operations_label_every_error (w : World) (err : error) :
(fst (GetExtensionBinaries e ctx extensionId w) = Returns (Err err) ->
 has_label "GetExtensionBinaries" err = true)
/\ (forall create,
      fst (CreateExtensionBinary e ctx extensionId create w) = Returns (Err err) ->
      has_label "CreateExtensionBinary" err = true)
/\ (fst (GetExtensionImages e ctx extensionId w) = Returns (Err err) ->
    has_label "GetExtensionImages" err = true)
/\ (forall file,
      fst (AddExtensionImage e ctx extensionId file w) = Returns (Err err) ->
      has_label "AddExtensionImage" err = true)
/\ (forall binaryId,
      fst (GetBinaryReviewResults e ctx extensionId binaryId w)
      = Returns (Err err) ->
      has_label "GetBinaryReviewResults" err = true).
Proof.
repeat split; intros *.
- unfold GetExtensionBinaries, fmt_Errorf. go_split; labelled.
- unfold CreateExtensionBinary, fmt_Errorf. go_split; labelled.
- unfold GetExtensionImages, fmt_Errorf. go_split; labelled.
- unfold AddExtensionImage, fmt_Errorf. go_split; labelled.
- unfold GetBinaryReviewResults, fmt_Errorf. go_split; labelled.
Qed.

(** X3. In the operations that return a bare error, the only error that
  can come back without the operation's label is the error of the
  round trip of the request the call has just sent; every failure
  before that is labelled. *)
Theorem bare_error_operations_label_all_but_round_trip (w : World) (err : error) :
(forall update,
   labelled_or_round_trip e "UpdateExtensionBinaryInfo"
     (UpdateExtensionBinaryInfo e ctx extensionId update) w err)
/\ (forall binaryId zipPath,
      labelled_or_round_trip e "UpdateExtensionBinaryFile"
        (UpdateExtensionBinaryFile e ctx extensionId binaryId zipPath) w err)
/\ (forall iconFilePath,
      labelled_or_round_trip e "UpdateExtensionIcon"
        (UpdateExtensionIcon e ctx extensionId iconFilePath) w err)
/\ (forall imageId,
      labelled_or_round_trip e "DeleteExtensionImages"
        (DeleteExtensionImages e ctx extensionId imageId) w err)
/\ (forall image,
      labelled_or_round_trip e "UpdateExtensionImage"
        (UpdateExtensionImage e ctx extensionId image) w err)
/\ labelled_or_round_trip e "TriggerCodeReview"
     (TriggerCodeReview e ctx extensionId) w err.
Proof.
unfold labelled_or_round_trip.
repeat split; intros *.
- unfold UpdateExtensionBinaryInfo, fmt_Errorf. go_split; labelled_or_raw.
- unfold UpdateExtensionBinaryFile, fmt_Errorf. go_split; labelled_or_raw.
- unfold UpdateExtensionIcon, fmt_Errorf. go_split; labelled_or_raw.
- unfold DeleteExtensionImages, fmt_Errorf. go_split; labelled_or_raw.
- unfold UpdateExtensionImage, fmt_Errorf. go_split; labelled_or_raw.
- unfold TriggerCodeReview, fmt_Errorf. go_split; labelled_or_raw.
Qed.

(** X4. A bare-error operation returns nil only after its single request,
  of the method and path of that operation, has been answered. *)
Theorem nil_only_after_answered_request (w : World) :
(forall update,
   nil_after_round_trip e "PUT"
     (ApiUrl +:+ "/producers/" +:+ fmt_d (producerId e) +:+ "/plugins/"
      +:+ fmt_d extensionId +:+ "/binaries/"
      +:+ fmt_d (ExtensionUpdate.Id update))
     (UpdateExtensionBinaryInfo e ctx extensionId update) w)
/\ (forall binaryId zipPath,
      nil_after_round_trip e "POST"
        (ApiUrl +:+ "/producers/" +:+ fmt_d (producerId e) +:+ "/plugins/"
         +:+ fmt_d extensionId +:+ "/binaries/" +:+ fmt_d binaryId +:+ "/file")
        (UpdateExtensionBinaryFile e ctx extensionId binaryId zipPath) w)
/\ (forall iconFilePath,
      nil_after_round_trip e "POST"
        (ApiUrl +:+ "/plugins/" +:+ fmt_d extensionId +:+ "/icon")
        (UpdateExtensionIcon e ctx extensionId iconFilePath) w)
/\ (forall imageId,
      nil_after_round_trip e "DELETE"
        (ApiUrl +:+ "/plugins/" +:+ fmt_d extensionId +:+ "/pictures/"
         +:+ fmt_d imageId)
        (DeleteExtensionImages e ctx extensionId imageId) w)
/\ (forall image,
      nil_after_round_trip e "PUT"
        (ApiUrl +:+ "/plugins/" +:+ fmt_d extensionId +:+ "/pictures/"
         +:+ fmt_d (ExtensionImage.Id image))
        (UpdateExtensionImage e ctx extensionId (Some image)) w)
/\ nil_after_round_trip e "POST"
     (ApiUrl +:+ "/plugins/" +:+ fmt_d extensionId +:+ "/reviews")
     (TriggerCodeReview e ctx extensionId) w.
Proof.
unfold nil_after_round_trip.
repeat split; intros *.
- unfold UpdateExtensionBinaryInfo, fmt_Errorf. go_split; answered.
- unfold UpdateExtensionBinaryFile, fmt_Errorf. go_split; answered.
- unfold UpdateExtensionIcon, fmt_Errorf. go_split; answered.
- unfold DeleteExtensionImages, fmt_Errorf. go_split; answered.
- unfold UpdateExtensionImage, fmt_Errorf. go_split; answered.
- unfold TriggerCodeReview, fmt_Errorf. go_split; answered.
Qed.

(** X5. A read or create operation returns a value only as the decoding
  of the response to its single request, of the method and path of
  that operation. *)
Theorem value_only_from_response (w : World) :
(forall binaries,
   value_from_response e "GET"
     (ApiUrl +:+ "/producers/" +:+ fmt_d (producerId e) +:+ "/plugins/"
      +:+ fmt_d extensionId +:+ "/binaries")
     json_Unmarshal_binaries
     (GetExtensionBinaries e ctx extensionId) w binaries)
/\ (forall create binary,
      value_from_response e "POST"
        (ApiUrl +:+ "/producers/" +:+ fmt_d (producerId e) +:+ "/plugins/"
         +:+ fmt_d extensionId +:+ "/binaries")
        json_Unmarshal_binary
        (CreateExtensionBinary e ctx extensionId create) w binary)
/\ (forall images,
      value_from_response e "GET"
        (ApiUrl +:+ "/plugins/" +:+ fmt_d extensionId +:+ "/pictures")
        json_Unmarshal_images
        (GetExtensionImages e ctx extensionId) w images)
/\ (forall binaryId results,
      value_from_response e "GET"
        (ApiUrl +:+ "/plugins/" +:+ fmt_d extensionId +:+ "/binaries/"
         +:+ fmt_d binaryId +:+ "/checkresults")
        json_Unmarshal_results
        (GetBinaryReviewResults e ctx extensionId binaryId) w results).
Proof.
unfold value_from_response.
repeat split; intros *.
- unfold GetExtensionBinaries, fmt_Errorf. go_split; decoded.
- unfold CreateExtensionBinary, fmt_Errorf. go_split; decoded.
- unfold GetExtensionImages, fmt_Errorf. go_split; decoded.
- unfold GetBinaryReviewResults, fmt_Errorf. go_split; decoded.
Qed.
End EndpointProps.

Section UploadEdgeProps.
Context `{Platform}.
Variables (e : ProducerEndpoint) (ctx : context_Context) (extensionId : Z).

Ltac no_regular_file Hnot :=
first [ exfalso; eapply Hnot; first [eassumption | reflexivity]
      | split; [reflexivity | eexists; reflexivity] ].

(** X6. An upload whose path does not name a readable regular file (it
  is missing, or is a directory) sends no request and returns an
  error. *)
Theorem upload_of_unreadable_path_sends_nothing (w : World) (path : string) :
(forall data, fs w !! path <> Some (RegularFile data)) ->
(forall binaryId,
   sent (snd (UpdateExtensionBinaryFile e ctx extensionId binaryId path w)) = sent w
   /\ exists err,
        fst (UpdateExtensionBinaryFile e ctx extensionId binaryId path w)
        = Returns (Some err))
/\ (sent (snd (UpdateExtensionIcon e ctx extensionId path w)) = sent w
    /\ exists err,
         fst (UpdateExtensionIcon e ctx extensionId path w) = Returns (Some err))
/\ (sent (snd (AddExtensionImage e ctx extensionId path w)) = sent w
    /\ exists err,
         fst (AddExtensionImage e ctx extensionId path w) = Returns (Err err)).
Proof.
intros Hnot. split; [intros binaryId | split].
- unfold UpdateExtensionBinaryFile. go_split; no_regular_file Hnot.
- unfold UpdateExtensionIcon. go_split; no_regular_file Hnot.
- unfold AddExtensionImage. go_split; no_regular_file Hnot.
Qed.


(** X8. When the icon file cannot be decoded, or its resized image cannot
  be encoded, the icon upload stops before any request is sent and
  returns that failure under its label. *)
Theorem icon_upload_aborts_on_image_failure
  (w : World) (iconFilePath : string) (data : bytes) (err : error) :
fs w !! iconFilePath = Some (RegularFile data) ->
(image_decode data = Err err
 \/ exists img format,
      image_decode data = Ok (img, format)
      /\ is_256x256 img = false
      /\ png_encode (spec_canvas img) = Err err) ->
sent (snd (UpdateExtensionIcon e ctx extensionId iconFilePath w)) = sent w
/\ fst (UpdateExtensionIcon e ctx extensionId iconFilePath w)
   = Returns (Some (errorString ("UpdateExtensionIcon: " +:+ Error err +:+ ""))).
Proof.
intros Hfs [Hdec | (img & format & Hdec & Hsz & Hpng)].
- unfold UpdateExtensionIcon, fmt_Errorf. go_run. split; reflexivity.
- change (png_encode
            (draw_CatmullRom_Scale (image_NewRGBA (image_Rect 0 0 256 256))
               (RGBA_Bounds (image_NewRGBA (image_Rect 0 0 256 256)))
               img (Image_Bounds img) draw_Over) = Err err) in Hpng.
  assert (Hresize : negb (Dx (Image_Bounds img) =? 256)
                    || negb (Dy (Image_Bounds img) =? 256) = true).
  { unfold is_256x256 in Hsz.
    destruct (Dx (Image_Bounds img) =? 256), (Dy (Image_Bounds img) =? 256);
      (reflexivity || discriminate Hsz). }
  clear Hsz.
  unfold UpdateExtensionIcon, fmt_Errorf. go_run. split; reflexivity.
Qed.

(** X9. When the icon upload returns nil, the handle it opened is closed
  again. *)
Theorem icon_upload_nil_closes_handle (w : World) (iconFilePath : string) :
fst (UpdateExtensionIcon e ctx extensionId iconFilePath w) = Returns None ->
is_open (mkFile (next_fd w) iconFilePath)
  (snd (UpdateExtensionIcon e ctx extensionId iconFilePath w)) = false.
Proof.
unfold UpdateExtensionIcon, is_open.
go_split;
  first [ let Heq := fresh in intros Heq; discriminate Heq
        | intros _; reflexivity
        | match goal with
          | Hx : delete _ _ !! _ = Some _ |- _ =>
              rewrite lookup_delete_eq in Hx; discriminate Hx
          end ].
Qed.

(** X10. Once the icon file has been decoded, the icon upload logs one
  line and no more, on every path: at info level the resizing from
  the decoded width and height when the image is not 256x256, at debug
  level the copy of the original file when it is. *)
Theorem icon_upload_logs_one_line
  (w : World) (iconFilePath : string) (data : bytes) (img : Image)
  (format : string) :
fs w !! iconFilePath = Some (RegularFile data) ->
image_decode data = Ok (img, format) ->
logged (snd (UpdateExtensionIcon e ctx extensionId iconFilePath w))
= logged w
  ++ [if is_256x256 img
      then (LevelDebug,
            "Store icon image is already 256x256, copying original file")
      else (LevelInfo,
            "Resizing store icon image from "
            +:+ fmt_d (Dx (Image_Bounds img)) +:+ "x"
            +:+ fmt_d (Dy (Image_Bounds img)) +:+ " to 256x256")].
Proof.
intros Hfs Hdec. unfold UpdateExtensionIcon, is_256x256.
go_run.
destruct (Dx (Image_Bounds img) =? 256), (Dy (Image_Bounds img) =? 256);
  go_split; reflexivity.
Qed.

(** X11. [UpdateExtensionImage] on a nil image panics on [image.Id] once
  the image has been marshalled: it sends nothing and returns no
  error. *)
Theorem UpdateExtensionImage_nil_panics (w : World) (content : bytes) :
json_Marshal_ExtensionImage None = Ok content ->
UpdateExtensionImage e ctx extensionId None w
= (Panics "runtime error: invalid memory address or nil pointer dereference", w).
Proof.
intros Hmarshal. unfold UpdateExtensionImage. go_run. reflexivity.
Qed.

(** X12. [AddExtensionImage] returns the first element of the decoded
  response and ignores the rest: from a non-empty list it returns the
  head, also when the head is nil, and whenever it returns an image
  that image heads the decoded response to its POST to the pictures
  path. *)
Theorem AddExtensionImage_returns_head
  (w : World) (file : string) :
(forall data header body image rest,
   fs w !! file = Some (RegularFile data) ->
   authorize (c e) "POST"
     (ApiUrl +:+ "/plugins/" +:+ fmt_d extensionId +:+ "/pictures") = Ok header ->
   roundTrip (c e)
     (spec_upload_request
        (ApiUrl +:+ "/plugins/" +:+ fmt_d extensionId +:+ "/pictures")
        (filepath_Base file) data header) = Ok body ->
   json_Unmarshal_images body = Ok (image :: rest) ->
   fst (AddExtensionImage e ctx extensionId file w) = Returns (Ok image))
/\ (forall image,
      fst (AddExtensionImage e ctx extensionId file w) = Returns (Ok image) ->
      exists r body rest,
        sent (snd (AddExtensionImage e ctx extensionId file w)) = sent w ++ [r]
        /\ Method r = "POST"
        /\ URL r = ApiUrl +:+ "/plugins/" +:+ fmt_d extensionId +:+ "/pictures"
        /\ roundTrip (c e) r = Ok body
        /\ json_Unmarshal_images body = Ok (image :: rest)).
Proof.
split.
- intros data header body image rest Hfs Hauth Hresp Hlist.
  change (authorize (c e) "POST"
            (fmt_Sprintf "%s/plugins/%d/pictures"
               [AString ApiUrl; AInt extensionId]) = Ok header) in Hauth.
  unfold spec_upload_request, spec_multipart_body in Hresp.
  rewrite app_assoc in Hresp.
  change (ApiUrl +:+ "/plugins/" +:+ fmt_d extensionId +:+ "/pictures")
    with (fmt_Sprintf "%s/plugins/%d/pictures" [AString ApiUrl; AInt extensionId])
    in Hresp.
  unfold AddExtensionImage. go_run. reflexivity.
- intros image. unfold AddExtensionImage, fmt_Errorf.
  go_split;
    first [ let Heq := fresh in intros Heq; discriminate Heq
          | let Heq := fresh in
            intros Heq; injection Heq as <-;
            eexists _, _, _;
            split; [reflexivity |];
            split; [reflexivity |];
            split; [url_eq |];
            split; eassumption ].
Qed.
End UploadEdgeProps.

(** ** The pull command *)

Section PullProps.
Import ProjectConfigPull.
Context `{Shop}.

Lemma Pull_range_frame (applyers : list Applyer) (client : ShopClient)
  (cfg : Config) (s : CmdWorld) :
files (snd (Pull_range applyers client cfg s)) = files s
/\ console (snd (Pull_range applyers client cfg s)) = console s.
Proof.
revert cfg s. induction applyers as [|a rest IH]; intros cfg s;
  cbn [Pull_range]; [split; reflexivity |].
unfold call_Pull. destruct (Applyer_Pull a client cfg) as [cfg' [err|]];
  cbn [snd files console]; [split; reflexivity |].
destruct (IH cfg' (mkCmdWorld (files s) (console s) (pulls s ++ [a])))
  as [Hf Hc].
rewrite Hf, Hc. split; reflexivity.
Qed.

Lemma Pull_range_all (applyers : list Applyer) (client : ShopClient)
  (cfg cfg' : Config) (s s' : CmdWorld) :
Pull_range applyers client cfg s = (cfg', None, s') ->
cfg' = spec_pulled client cfg applyers
/\ pulls s' = pulls s ++ applyers.
Proof.
revert cfg s. induction applyers as [|a rest IH]; intros cfg s;
  cbn [Pull_range spec_pulled].
- intros [= <- <-]. rewrite app_nil_r. split; reflexivity.
- unfold call_Pull. destruct (Applyer_Pull a client cfg) as [cfg1 [err|]];
    cbn [fst]; [intros [=] |].
  intros Hrest. apply IH in Hrest as [Hcfg Hpulls].
  cbn [pulls] in Hpulls. rewrite <- app_assoc in Hpulls.
  split; assumption.
Qed.

Lemma Pull_range_stops (before after : list Applyer) (failing : Applyer)
  (client : ShopClient) (cfg : Config) (s : CmdWorld) (err : error) :
spec_pulls_succeed client cfg before ->
snd (Applyer_Pull failing client (spec_pulled client cfg before)) = Some err ->
Pull_range (before ++ failing :: after) client cfg s
= (fst (Applyer_Pull failing client (spec_pulled client cfg before)),
   Some err,
   mkCmdWorld (files s) (console s) (pulls s ++ before ++ [failing])).
Proof.
revert cfg s. induction before as [|a rest IH]; intros cfg s;
  cbn [app Pull_range spec_pulled spec_pulls_succeed].
- intros _ Hfail. unfold call_Pull.
  destruct (Applyer_Pull failing client cfg) as [cfg1 o].
  cbn [snd] in Hfail. subst o. reflexivity.
- intros [Hok Hrest] Hfail. unfold call_Pull.
  destruct (Applyer_Pull a client cfg) as [cfg1 o].
  cbn [fst snd] in *. subst o.
  rewrite (IH cfg1 _ Hrest Hfail). cbn [files console pulls].
  rewrite <- app_assoc. reflexivity.
Qed.

(** X13. When the pull command returns nil, every sync applyer has been
  pulled, in order; the config file holds the YAML of the config those
  pulls left; and the log holds the deprecation warning followed by
  the line that the file has been updated. *)
Theorem RunE_nil_wrote_pulled_config (projectConfigPath : string) (s : CmdWorld) :
fst (RunE projectConfigPath s) = None ->
exists cfg client content,
  shop_ReadConfig projectConfigPath false (files s) = Ok cfg
  /\ shop_NewShopClient cfg = Ok client
  /\ yaml_Marshal (spec_pulled client cfg (NewSyncApplyers cfg)) = Ok content
  /\ files (snd (RunE projectConfigPath s))
     = <[projectConfigPath := RegularFile content]> (files s)
  /\ pulls (snd (RunE projectConfigPath s)) = pulls s ++ NewSyncApplyers cfg
  /\ console (snd (RunE projectConfigPath s))
     = console s
       ++ [(WarnLevel, deprecation);
           (InfoLevel, projectConfigPath +:+ " has been updated")].
Proof.
unfold RunE. cbn [log files].
destruct (shop_ReadConfig projectConfigPath false (files s))
  as [cfg|err] eqn:Hread; [| intros [=]].
destruct (shop_NewShopClient cfg) as [client|err] eqn:Hclient; [| intros [=]].
destruct (Pull_range (NewSyncApplyers cfg) client cfg _)
  as [[cfg' [err|]] s'] eqn:Hpull; [intros [=] |].
pose proof (Pull_range_frame (NewSyncApplyers cfg) client cfg
              (log WarnLevel deprecation [] s)) as [Hfiles Hconsole].
rewrite Hpull in Hfiles, Hconsole.
cbn [snd log files console] in Hfiles, Hconsole.
apply Pull_range_all in Hpull as [-> Hpulls]. cbn [log pulls] in Hpulls.
destruct (yaml_Marshal _) as [content|err] eqn:Hyaml; [| intros [=]].
unfold os_WriteFile. rewrite Hfiles.
destruct (files s !! projectConfigPath) as [[data|]|];
  cbn [fst snd]; intros Hnil; try discriminate Hnil;
  exists cfg, client, content;
  cbn [log files console pulls]; rewrite Hconsole, <- app_assoc;
  repeat split; assumption || reflexivity.
Qed.


(** X15. The pull command stops at the first applyer whose pull fails:
  it returns that applyer's error as it is, the applyers after it are
  not pulled, and nothing is written. *)
Theorem RunE_stops_at_first_failure
  (projectConfigPath : string) (s : CmdWorld) (cfg : Config)
  (client : ShopClient) (before after : list Applyer) (failing : Applyer)
  (err : error) :
shop_ReadConfig projectConfigPath false (files s) = Ok cfg ->
shop_NewShopClient cfg = Ok client ->
NewSyncApplyers cfg = before ++ failing :: after ->
spec_pulls_succeed client cfg before ->
snd (Applyer_Pull failing client (spec_pulled client cfg before)) = Some err ->
RunE projectConfigPath s
= (Some err,
   mkCmdWorld (files s) (console s ++ [(WarnLevel, deprecation)])
     (pulls s ++ before ++ [failing])).
Proof.
intros Hread Hclient Happlyers Hok Hfail.
unfold RunE. cbn [log files]. rewrite Hread, Hclient, Happlyers.
rewrite (Pull_range_stops before after failing client cfg _ err Hok Hfail).
reflexivity.
Qed.
End PullProps.

(** ** More on the summary and the version filter *)

Section SummaryMore.
Context `{Bluemonday}.

Lemma spec_entry_nonempty (s : SubCheckResult.t) (rest : string) :
spec_entry s +:+ rest <> "".
Proof.
assert (Hhead : exists tail, spec_entry s +:+ rest = String "=" tail)
  by (eexists; reflexivity).
destruct Hhead as [tail ->]. discriminate.
Qed.

Lemma spec_summary_empty_iff (results : list SubCheckResult.t) :
fold_right String.append "" (map spec_entry (List.filter spec_reported results))
= ""
<-> forallb (fun s => SubCheckResult.Passed s
                      && negb (SubCheckResult.HasWarnings s)) results = true.
Proof.
induction results as [|r rest IH]; cbn [List.filter forallb];
  [split; reflexivity |].
unfold spec_reported at 1.
destruct (SubCheckResult.Passed r), (SubCheckResult.HasWarnings r);
  cbn [negb orb andb map fold_right];
  first [ exact IH
        | split; [intros Habs; exfalso; exact (spec_entry_nonempty _ _ Habs)
                 | discriminate] ].
Qed.

(** X16. The summary is empty exactly when every sub-check passed without
  warnings; so a review that has warnings never has an empty
  summary. *)
Theorem GetSummary_empty_iff_all_clean (review : BinaryReviewResult.t) :
(BinaryReviewResult.GetSummary review = "" <->
   forallb (fun s => SubCheckResult.Passed s
                     && negb (SubCheckResult.HasWarnings s))
     (BinaryReviewResult.SubCheckResults review) = true)
/\ (BinaryReviewResult.HasWarnings review = true ->
    BinaryReviewResult.GetSummary review <> "").
Proof.
assert (Hiff : BinaryReviewResult.GetSummary review = "" <->
               forallb (fun s => SubCheckResult.Passed s
                                 && negb (SubCheckResult.HasWarnings s))
                 (BinaryReviewResult.SubCheckResults review) = true).
{ unfold BinaryReviewResult.GetSummary. rewrite GetSummary_range_spec.
  apply spec_summary_empty_iff. }
split; [exact Hiff |].
unfold BinaryReviewResult.HasWarnings.
rewrite HasWarnings_range_existsb. intros Hwarn Hempty.
apply Hiff in Hempty. clear Hiff.
induction (BinaryReviewResult.SubCheckResults review) as [|r rest IH];
  [discriminate Hwarn |].
cbn [map existsb forallb] in Hwarn, Hempty.
apply andb_true_iff in Hempty as [Hr Hrest].
destruct (SubCheckResult.HasWarnings r); cbn [orb] in Hwarn.
- rewrite andb_false_r in Hr. discriminate Hr.
- exact (IH Hwarn Hrest).
Qed.
End SummaryMore.

Lemma filter_comm {A : Type} (f g : A -> bool) (l : list A) :
  List.filter f (List.filter g l) = List.filter g (List.filter f l).
Proof.
  induction l as [|x l IH]; cbn [List.filter]; [reflexivity |].
  destruct (g x) eqn:Hg, (f x) eqn:Hf; cbn [List.filter];
    rewrite ?Hg, ?Hf, IH; reflexivity.
Qed.

Section VersionFilterMore.
Context `{VersionLib}.

(** X17. Filtering a catalogue given in two pieces gives the filtered
  pieces one after the other, for the records and for their names. *)
Theorem FilterOnVersion_app (l1 l2 : SoftwareVersionList)
  (constriant : Constraints) :
FilterOnVersion (l1 ++ l2) constriant
= FilterOnVersion l1 constriant ++ FilterOnVersion l2 constriant
/\ FilterOnVersionStringList (l1 ++ l2) constriant
   = FilterOnVersionStringList l1 constriant
     ++ FilterOnVersionStringList l2 constriant.
Proof.
unfold FilterOnVersion, FilterOnVersionStringList.
rewrite !FilterOnVersion_range_spec, !FilterOnVersionStringList_range_spec.
cbn [app]. rewrite List.filter_app, List.map_app. split; reflexivity.
Qed.

(** X18. Filtering by one constraint and then by another keeps the
  entries that satisfy both, and the order of the two filters does not
  matter. *)
Theorem FilterOnVersion_two_constraints (l : SoftwareVersionList)
  (c1 c2 : Constraints) :
FilterOnVersion (FilterOnVersion l c1) c2
= FilterOnVersion (FilterOnVersion l c2) c1
/\ FilterOnVersion (FilterOnVersion l c1) c2
   = List.filter (fun sw => spec_included c1 sw && spec_included c2 sw) l.
Proof.
unfold FilterOnVersion. rewrite !FilterOnVersion_range_spec. cbn [app].
split; [apply filter_comm |].
induction l as [|x l IH]; cbn [List.filter]; [reflexivity |].
destruct (spec_included c1 x) eqn:H1; cbn [List.filter andb].
- destruct (spec_included c2 x); rewrite IH; reflexivity.
- exact IH.
Qed.
End VersionFilterMore.

(** ** The further properties on the stand-in platform *)

Lemma value_operations_label_every_error_witness :
  has_label "GetExtensionBinaries"
    (errorString "GetExtensionBinaries: dial tcp: connection refused") = true.
Proof.
  apply (proj1 (@value_operations_label_every_error Stub.platform endpoint_down
                  context_Background 3 Stub.world _)).
  vm_compute. reflexivity.
Defined.

Lemma bare_error_operations_label_all_but_round_trip_witness :
  has_label "TriggerCodeReview" Stub.connection_refused = true
  \/ exists r,
       sent (snd (@TriggerCodeReview Stub.platform endpoint_down
                    context_Background 3 Stub.world))
       = sent Stub.world ++ [r]
       /\ roundTrip (c endpoint_down) r = Err Stub.connection_refused.
Proof.
  destruct (@bare_error_operations_label_all_but_round_trip Stub.platform
              endpoint_down context_Background 3 Stub.world
              Stub.connection_refused) as (_ & _ & _ & _ & _ & Hreview).
  apply Hreview. vm_compute. reflexivity.
Defined.

Lemma nil_only_after_answered_request_witness :
  exists r body,
    sent (snd (@TriggerCodeReview Stub.platform (endpoint_answering [])
                 context_Background 3 Stub.world))
    = sent Stub.world ++ [r]
    /\ Method r = "POST"
    /\ URL r = "https://api.example/plugins/3/reviews"
    /\ roundTrip (c (endpoint_answering [])) r = Ok body.
Proof.
  destruct (@nil_only_after_answered_request Stub.platform (endpoint_answering [])
              context_Background 3 Stub.world) as (_ & _ & _ & _ & _ & Hreview).
  apply Hreview. vm_compute. reflexivity.
Defined.

Lemma value_only_from_response_witness :
  exists r body,
    sent (snd (@GetExtensionImages Stub.platform (endpoint_answering [Byte.x05])
                 context_Background 3 Stub.world))
    = sent Stub.world ++ [r]
    /\ Method r = "GET"
    /\ URL r = "https://api.example/plugins/3/pictures"
    /\ roundTrip (c (endpoint_answering [Byte.x05])) r = Ok body
    /\ @json_Unmarshal_images Stub.platform body
       = Ok [Some (ExtensionImage.mk 5 "" [] 0)].
Proof.
  destruct (@value_only_from_response Stub.platform (endpoint_answering [Byte.x05])
              context_Background 3 Stub.world) as (_ & _ & Himages & _).
  apply Himages. vm_compute. reflexivity.
Defined.

Lemma upload_of_unreadable_path_sends_nothing_witness :
  sent (snd (@UpdateExtensionBinaryFile Stub.platform (endpoint_answering [])
               context_Background 3 9 "build/missing.zip" Stub.world))
  = sent Stub.world
  /\ exists err,
       fst (@UpdateExtensionBinaryFile Stub.platform (endpoint_answering [])
              context_Background 3 9 "build/missing.zip" Stub.world)
       = Returns (Some err).
Proof.
  assert (Hmissing : forall data,
            fs Stub.world !! "build/missing.zip" <> Some (RegularFile data)).
  { intros data. vm_compute. discriminate. }
  exact (proj1 (@upload_of_unreadable_path_sends_nothing Stub.platform
                  (endpoint_answering []) context_Background 3 Stub.world
                  "build/missing.zip" Hmissing) 9).
Defined.


Lemma icon_upload_aborts_on_image_failure_witness :
  sent (snd (@UpdateExtensionIcon Stub.platform (endpoint_answering [])
               context_Background 3 "plugin/notes.txt" Stub.world))
  = sent Stub.world
  /\ fst (@UpdateExtensionIcon Stub.platform (endpoint_answering [])
            context_Background 3 "plugin/notes.txt" Stub.world)
     = Returns (Some (errorString "UpdateExtensionIcon: image: unknown format")).
Proof.
  exact (@icon_upload_aborts_on_image_failure Stub.platform (endpoint_answering [])
           context_Background 3 Stub.world "plugin/notes.txt"
           (String.list_byte_of_string "x") image_ErrFormat eq_refl
           (or_introl eq_refl)).
Defined.

Lemma icon_upload_nil_closes_handle_witness :
  is_open (mkFile 0 "plugin/icon.png")
    (snd (@UpdateExtensionIcon Stub.platform (endpoint_answering [])
            context_Background 3 "plugin/icon.png" Stub.world)) = false.
Proof.
  apply (@icon_upload_nil_closes_handle Stub.platform (endpoint_answering [])
           context_Background 3 Stub.world "plugin/icon.png").
  vm_compute. reflexivity.
Defined.

Lemma icon_upload_logs_one_line_witness :
  logged (snd (@UpdateExtensionIcon Stub.platform (endpoint_answering [])
                 context_Background 3 "plugin/wide.png" Stub.world))
  = [(LevelInfo, "Resizing store icon image from 512x256 to 256x256")].
Proof.
  exact (@icon_upload_logs_one_line Stub.platform (endpoint_answering [])
           context_Background 3 Stub.world "plugin/wide.png" Stub.icon512x256
           (image_Rect 0 0 512 256) "toy" eq_refl eq_refl).
Defined.

Lemma UpdateExtensionImage_nil_panics_witness :
  @UpdateExtensionImage Stub.platform (endpoint_answering []) context_Background
    3 None Stub.world
  = (Panics "runtime error: invalid memory address or nil pointer dereference",
     Stub.world).
Proof.
  exact (@UpdateExtensionImage_nil_panics Stub.platform (endpoint_answering [])
           context_Background 3 Stub.world (String.list_byte_of_string "{}")
           eq_refl).
Defined.

Lemma AddExtensionImage_returns_head_witness :
  fst (@AddExtensionImage Stub.platform (endpoint_answering [Byte.x05])
         context_Background 3 "plugin/wide.png" Stub.world)
  = Returns (Ok (Some (ExtensionImage.mk 5 "" [] 0))).
Proof.
  exact (proj1 (@AddExtensionImage_returns_head Stub.platform
                  (endpoint_answering [Byte.x05]) context_Background 3
                  Stub.world "plugin/wide.png")
           Stub.icon512x256 [("Authorization", "token")] [Byte.x05]
           (Some (ExtensionImage.mk 5 "" [] 0)) [] eq_refl eq_refl eq_refl eq_refl).
Defined.

Lemma GetSummary_empty_iff_all_clean_witness :
  @BinaryReviewResult.GetSummary Stub.sanitizer review_passed_with_warning <> "".
Proof.
  apply (proj2 (@GetSummary_empty_iff_all_clean Stub.sanitizer
                  review_passed_with_warning)).
  reflexivity.
Defined.

Lemma RunE_nil_wrote_pulled_config_witness :
  exists cfg client content,
    @ProjectConfigPull.shop_ReadConfig ProjectConfigPull.stub_shop_ok
      ".shopware-project.yml" false ProjectConfigPull.stub_files = Ok cfg
    /\ @ProjectConfigPull.shop_NewShopClient ProjectConfigPull.stub_shop_ok cfg
       = Ok client
    /\ @ProjectConfigPull.yaml_Marshal ProjectConfigPull.stub_shop_ok
         (ProjectConfigPull.spec_pulled client cfg
            (@ProjectConfigPull.NewSyncApplyers ProjectConfigPull.stub_shop_ok cfg))
       = Ok content
    /\ ProjectConfigPull.files
         (snd (ProjectConfigPull.RunE ".shopware-project.yml" pull_start_ok))
       = <[".shopware-project.yml" := RegularFile content]>
           ProjectConfigPull.stub_files
    /\ ProjectConfigPull.pulls
         (snd (ProjectConfigPull.RunE ".shopware-project.yml" pull_start_ok))
       = [] ++ @ProjectConfigPull.NewSyncApplyers ProjectConfigPull.stub_shop_ok cfg
    /\ ProjectConfigPull.console
         (snd (ProjectConfigPull.RunE ".shopware-project.yml" pull_start_ok))
       = [] ++ [(ProjectConfigPull.WarnLevel, ProjectConfigPull.deprecation);
                (ProjectConfigPull.InfoLevel,
                 ".shopware-project.yml" +:+ " has been updated")].
Proof.
  apply (@RunE_nil_wrote_pulled_config ProjectConfigPull.stub_shop_ok
           ".shopware-project.yml" pull_start_ok).
  vm_compute. reflexivity.
Defined.


Lemma RunE_stops_at_first_failure_witness :
  ProjectConfigPull.RunE ".shopware-project.yml" pull_start
  = (Some (errorString "pull failed: mail"),
     @ProjectConfigPull.mkCmdWorld ProjectConfigPull.stub_shop
       ProjectConfigPull.stub_files
       ([] ++ [(ProjectConfigPull.WarnLevel, ProjectConfigPull.deprecation)])
       ([] ++ [("theme", true)] ++ [("mail", false)])).
Proof.
  apply (@RunE_stops_at_first_failure ProjectConfigPull.stub_shop
           ".shopware-project.yml" pull_start [] tt
           [("theme", true)] [("system", true)] ("mail", false)
           (errorString "pull failed: mail"));
    try reflexivity.
  split; [reflexivity | exact I].
Defined.
